(** * An API gateway in Express: [server.js]

    The server forwards each request to one third-party HTTP API with
    [axios.get], reshapes the JSON it receives and answers with [res.json],
    or with a fixed text and status 500 when anything inside its [try]
    block throws.  This file embeds the six data-fetching handlers of
    [server.js] and the part of the JavaScript runtime they rely on, and
    proves the properties the specification states about them.

    Conventions of the embedding:
    - a JavaScript value is a [value]; an object keeps its own properties
      in the order of their creation, the first binding of a key being the
      one that counts; a Number is a binary64 float ([spec_float]);
    - a JavaScript string, a sequence of UTF-16 code units, is a [string]
      of bytes in which every code unit is written as the one to three
      bytes of its UTF-8 form: for text of the Basic Multilingual Plane
      this is the UTF-8 text itself;
    - an expression that may throw has type [result A]; a [try]/[catch]
      is [try_catch];
    - a handler either answers at once ([Respond]) or awaits exactly one
      [axios.get] ([AxiosGet]) and answers from its outcome;
    - what depends on the engine and its settings belongs to the host and
      is a [Host] record the handlers are parameterised by: the Unicode
      case mappings ([toLowerCase], [toUpperCase]) and the locale and
      time-zone dependent formatting ([toLocaleString],
      [toLocaleDateString], [toLocaleTimeString]). *)

From Stdlib Require Import ZArith List String Ascii Bool Lia QArith.
From Stdlib Require Import Floats.SpecFloat.
Import ListNotations.

Local Open Scope string_scope.
Local Open Scope Z_scope.

(** ** Exceptions *)

Inductive exn : Type :=
| TypeError      (* reading a property of null/undefined, calling a non-function *)
| AxiosError.    (* the promise of [axios.get] was rejected *)

Inductive result (A : Type) : Type :=
| Ok (a : A)
| Throw (e : exn).
Arguments Ok {A} a.
Arguments Throw {A} e.

Definition bind {A B : Type} (m : result A) (k : A -> result B) : result B :=
  match m with
  | Ok a => k a
  | Throw e => Throw e
  end.

Declare Scope js_scope.
Delimit Scope js_scope with js.
Notation "'let*' x ':=' m 'in' k" := (bind m (fun x => k))
  (at level 10, x name, m at level 100, k at level 200) : js_scope.
Local Open Scope js_scope.

Definition try_catch {A : Type} (body : result A) (handler : exn -> A) : A :=
  match body with
  | Ok a => a
  | Throw e => handler e
  end.

(** [mapM f l] runs [f] on the elements from left to right and stops at the
    first one that throws, as a callback passed to [Array.prototype.map]. *)
Fixpoint mapM {A B : Type} (f : A -> result B) (l : list A) : result (list B) :=
  match l with
  | [] => Ok []
  | x :: r =>
      let* y := f x in
      let* ys := mapM f r in
      Ok (y :: ys)
  end.

(** [filterM p l] is [Array.prototype.filter] with a callback that may throw. *)
Fixpoint filterM {A : Type} (p : A -> result bool) (l : list A) : result (list A) :=
  match l with
  | [] => Ok []
  | x :: r =>
      let* keep := p x in
      let* ys := filterM p r in
      Ok (if keep then x :: ys else ys)
  end.

(** ** Strings and their code units *)

Fixpoint take (n : nat) (s : string) : string :=
  match n, s with
  | S k, String c r => String c (take k r)
  | _, _ => ""
  end.

Fixpoint drop (n : nat) (s : string) : string :=
  match n, s with
  | S k, String _ r => drop k r
  | _, _ => s
  end.

(** The number of bytes of the code unit whose first byte is [c]: one
    below [0x80], two from [0xC0] to [0xDF], three from [0xE0] on. *)
Definition unit_width (c : ascii) : nat :=
  let n := nat_of_ascii c in
  if (n <? 192)%nat then 1%nat
  else if (n <? 224)%nat then 2%nat
  else 3%nat.

(** [s.charAt(0)]: the first code unit, the empty string if there is none. *)
Definition charAt0 (s : string) : string :=
  match s with
  | "" => ""
  | String c _ => take (unit_width c) s
  end.

(** [s.slice(1)]: the string without its first code unit. *)
Definition slice1 (s : string) : string :=
  match s with
  | "" => ""
  | String c _ => drop (unit_width c) s
  end.

(** [s.length]: the number of code units, that is of bytes that do not
    continue a code unit ([0x80] to [0xBF]). *)
Fixpoint units_length (s : string) : nat :=
  match s with
  | "" => O
  | String c r =>
      let n := nat_of_ascii c in
      if (128 <=? n)%nat && (n <? 192)%nat then units_length r
      else S (units_length r)
  end.

(** The code units of a string, one string for each. *)
Fixpoint units_of (fuel : nat) (s : string) : list string :=
  match fuel with
  | O => []
  | S f =>
      match s with
      | "" => []
      | _ => charAt0 s :: units_of f (slice1 s)
      end
  end.

(** ** Numbers: IEEE 754 binary64 *)

Definition number : Type := spec_float.

Definition prec : Z := 53.
Definition emax : Z := 1024.

Definition NaN : number := S754_nan.

(** The Number for an integer, rounded to nearest, ties to even. *)
Definition num_of_Z (z : Z) : number := binary_normalize prec emax z 0 false.

(** [x * y] on Numbers. *)
Definition num_mul (x y : number) : number := SFmul prec emax x y.

(** The mathematical value of a finite Number. *)
Definition Qpow2 (e : Z) : Q :=
  match e with
  | Zneg p => 1 # (2 ^ p)
  | _ => inject_Z (2 ^ e)
  end.

Definition num_abs_Q (m : positive) (e : Z) : Q := inject_Z (Zpos m) * Qpow2 e.

(** ** Values *)

#[warnings="-register-all"]
Inductive value : Type :=
| VUndefined
| VNull
| VBool (b : bool)
| VNum (n : number)
| VStr (s : string)
| VArr (elems : list value)
| VObj (props : list (string * value)).

(** ToBoolean. *)
Definition truthy (v : value) : bool :=
  match v with
  | VUndefined | VNull => false
  | VBool b => b
  | VNum (S754_zero _) | VNum S754_nan => false
  | VNum _ => true
  | VStr "" => false
  | VStr _ => true
  | VArr _ | VObj _ => true
  end.

Definition nullish (v : value) : bool :=
  match v with
  | VUndefined | VNull => true
  | _ => false
  end.

Fixpoint lookup (key : string) (props : list (string * value)) : option value :=
  match props with
  | [] => None
  | (k, v) :: r => if String.eqb k key then Some v else lookup key r
  end.

Definition has_own (key : string) (props : list (string * value)) : bool :=
  match lookup key props with
  | Some _ => true
  | None => false
  end.

(** [v.key] for the payload field names the handlers read (none of them
    names a property of a built-in prototype): a TypeError on [null] and
    [undefined], the own property of an object, [undefined] otherwise. *)
Definition get (v : value) (key : string) : result value :=
  match v with
  | VUndefined | VNull => Throw TypeError
  | VObj props =>
      match lookup key props with
      | Some x => Ok x
      | None => Ok VUndefined
      end
  | VArr l => if String.eqb key "length" then Ok (VNum (num_of_Z (Z.of_nat (List.length l)))) else Ok VUndefined
  | VStr s => if String.eqb key "length" then Ok (VNum (num_of_Z (Z.of_nat (units_length s)))) else Ok VUndefined
  | VBool _ | VNum _ => Ok VUndefined
  end.

(** [v[0]]. *)
Definition get0 (v : value) : result value :=
  match v with
  | VUndefined | VNull => Throw TypeError
  | VObj props =>
      match lookup "0" props with
      | Some x => Ok x
      | None => Ok VUndefined
      end
  | VArr l =>
      match l with
      | x :: _ => Ok x
      | [] => Ok VUndefined
      end
  | VStr s =>
      match s with
      | "" => Ok VUndefined
      | _ => Ok (VStr (charAt0 s))
      end
  | VBool _ | VNum _ => Ok VUndefined
  end.

(** ** Decimal digits *)

Definition digit_char (d : Z) : ascii := ascii_of_nat (48 + Z.to_nat d).

Fixpoint dec_loop (fuel : nat) (n : Z) (acc : string) : string :=
  match fuel with
  | O => acc
  | S f =>
      let acc' := String (digit_char (n mod 10)) acc in
      if n <? 10 then acc' else dec_loop f (n / 10) acc'
  end.

(** The decimal representation of [n >= 0], with no leading zeroes. *)
Definition dec_of_Z (n : Z) : string :=
  dec_loop (S (Z.to_nat (Z.log2 n))) n "".

Definition is_digit (c : ascii) : bool :=
  let n := nat_of_ascii c in (48 <=? n)%nat && (n <=? 57)%nat.

Definition digit_val (c : ascii) : Z := Z.of_nat (nat_of_ascii c) - 48.

Fixpoint repeat_char (c : ascii) (n : nat) : string :=
  match n with
  | O => ""
  | S k => String c (repeat_char c k)
  end.

Fixpoint all_digits (s : string) : bool :=
  match s with
  | "" => true
  | String c r => is_digit c && all_digits r
  end.

(** ** StringToNumber (ECMA-262, 7.1.4.1.1) *)

(** StrWhiteSpaceChar: the number of bytes of the white space or line
    terminator that [s] starts with, 0 when it starts with none.  These
    are U+0009 to U+000D, U+0020, U+00A0, U+1680, U+2000 to U+200A,
    U+2028, U+2029, U+202F, U+205F, U+3000 and U+FEFF. *)
Definition ws_width (s : string) : nat :=
  match s with
  | "" => O
  | String a r =>
      let x := nat_of_ascii a in
      if ((9 <=? x) && (x <=? 13) || (x =? 32))%nat then 1%nat
      else
        match r with
        | "" => O
        | String b r' =>
            let y := nat_of_ascii b in
            if ((x =? 194) && (y =? 160))%nat then 2%nat
            else
              match r' with
              | "" => O
              | String c _ =>
                  let z := nat_of_ascii c in
                  if ((x =? 225) && (y =? 154) && (z =? 128)
                      || (x =? 226) && (y =? 128)
                         && ((128 <=? z) && (z <=? 138) || (z =? 168) || (z =? 169) || (z =? 175))
                      || (x =? 226) && (y =? 129) && (z =? 159)
                      || (x =? 227) && (y =? 128) && (z =? 128)
                      || (x =? 239) && (y =? 187) && (z =? 191))%nat
                  then 3%nat
                  else O
              end
        end
  end.

Fixpoint trim_start_loop (fuel : nat) (s : string) : string :=
  match fuel with
  | O => s
  | S f =>
      match ws_width s with
      | O => s
      | w => trim_start_loop f (drop w s)
      end
  end.

Definition trim_start (s : string) : string :=
  trim_start_loop (String.length s) s.

(** The string is made of white space only. *)
Definition all_ws (s : string) : bool := String.eqb (trim_start s) "".

Fixpoint trim_end (s : string) : string :=
  match s with
  | "" => ""
  | String c r => if all_ws s then "" else String c (trim_end r)
  end.

Definition trim (s : string) : string := trim_end (trim_start s).

(** The value [b] of a digit in base 16, 8 or 2, if it is one. *)
Definition digit_in_base (base : Z) (c : ascii) : option Z :=
  let n := Z.of_nat (nat_of_ascii c) in
  let d :=
    if (48 <=? n) && (n <=? 57) then n - 48
    else if (97 <=? n) && (n <=? 102) then n - 87
    else if (65 <=? n) && (n <=? 70) then n - 55
    else 99 in
  if d <? base then Some d else None.

Fixpoint int_in_base (base : Z) (s : string) (acc : Z) : option Z :=
  match s with
  | "" => Some acc
  | String c r =>
      match digit_in_base base c with
      | Some d => int_in_base base r (acc * base + d)
      | None => None
      end
  end.

(** Reads the longest prefix of decimal digits: its value, the number of
    digits read, and the rest. *)
Fixpoint read_digits (s : string) (acc : Z) (count : nat) : Z * nat * string :=
  match s with
  | String c r => if is_digit c then read_digits r (acc * 10 + digit_val c) (S count) else (acc, count, s)
  | "" => (acc, count, s)
  end.

(** The Number nearest to [(-1)^sign * m * 10^e], ties to even.  The
    exponent is first compared with the range of binary64, so that the
    power of ten that is computed stays small. *)
Definition num_of_decimal (sign : bool) (m : Z) (e : Z) : number :=
  match m with
  | Zpos p =>
      let nd := Z.of_nat (String.length (dec_of_Z m)) in
      if 400 <? nd + e then S754_infinity sign
      else if nd + e <? -400 then S754_zero sign
      else if 0 <=? e then binary_round prec emax sign (Z.to_pos (m * 10 ^ e)) 0
      else SFdiv prec emax (S754_finite sign p 0) (S754_finite false (Z.to_pos (10 ^ (- e))) 0)
  | _ => S754_zero sign
  end.

(** ExponentPart, then the end of the string. *)
Definition read_exponent (s : string) : option Z :=
  match s with
  | "" => Some 0
  | String c r =>
      if (Ascii.eqb c "e" || Ascii.eqb c "E")%bool then
        let '(neg, r') :=
          match r with
          | String "+" t => (false, t)
          | String "-" t => (true, t)
          | _ => (false, r)
          end in
        match read_digits r' 0 0 with
        | (_, O, _) => None
        | (v, _, "") => Some (if neg then - v else v)
        | _ => None
        end
      else None
  end.

(** StrUnsignedDecimalLiteral other than [Infinity]. *)
Definition read_decimal (sign : bool) (s : string) : number :=
  let '(ip, ni, r) := read_digits s 0 0 in
  let '(m, nf, r') :=
    match r with
    | String "." t => let '(v, n, t') := read_digits t ip 0 in (v, n, t')
    | _ => (ip, O, r)
    end in
  match (ni + nf)%nat with
  | O => NaN
  | _ =>
      match read_exponent r' with
      | Some e => num_of_decimal sign m (e - Z.of_nat nf)
      | None => NaN
      end
  end.

Definition non_decimal (base : Z) (digits : string) : number :=
  match digits with
  | "" => NaN
  | _ =>
      match int_in_base base digits 0 with
      | Some v => num_of_Z v
      | None => NaN
      end
  end.

Definition StringToNumber (str : string) : number :=
  match trim str with
  | "" => S754_zero false
  | String "0" (String "x" r) | String "0" (String "X" r) => non_decimal 16 r
  | String "0" (String "o" r) | String "0" (String "O" r) => non_decimal 8 r
  | String "0" (String "b" r) | String "0" (String "B" r) => non_decimal 2 r
  | text =>
      let '(sign, body) :=
        match text with
        | String "+" t => (false, t)
        | String "-" t => (true, t)
        | _ => (false, text)
        end in
      if String.eqb body "Infinity" then S754_infinity sign
      else read_decimal sign body
  end.


(** ** Number::toString (ECMA-262, 6.1.6.1.20, radix 10) *)

(** A positive finite Number [m * 2^e] as the fraction [p / q]. *)
Definition frac_of (m : positive) (e : Z) : Z * Z :=
  match e with
  | Zneg k => (Zpos m, 2 ^ Zpos k)
  | _ => (Zpos m * 2 ^ e, 1)
  end.

(** [10^n <= p / q]. *)
Definition pow10_le (n : Z) (p q : Z) : bool :=
  if 0 <=? n then 10 ^ n * q <=? p else q <=? p * 10 ^ (- n).

Fixpoint log10_down (fuel : nat) (n : Z) (p q : Z) : Z :=
  match fuel with
  | O => n
  | S f => if pow10_le n p q then n else log10_down f (n - 1) p q
  end.

Fixpoint log10_up (fuel : nat) (n : Z) (p q : Z) : Z :=
  match fuel with
  | O => n
  | S f => if pow10_le (n + 1) p q then log10_up f (n + 1) p q else n
  end.

(** The [n] with [10^n <= p / q < 10^(n+1)], from an estimate by the
    binary logarithms that is then adjusted. *)
Definition floor_log10 (p q : Z) : Z :=
  let est := ((Z.log2 p - Z.log2 q) * 1233) / 4096 in
  log10_up 4 (log10_down 4 est p q) p q.

(** [floor (p / q / 10^d)] and whether the remainder is below, at or above
    one half. *)
Definition scaled (p q d : Z) : Z * comparison :=
  let '(num, den) := if 0 <=? d then (p, q * 10 ^ d) else (p * 10 ^ (- d), q) in
  (num / den, (2 * (num mod den)) ?= den).

Definition num_eqb (x y : number) : bool :=
  match x, y with
  | S754_finite s1 m1 e1, S754_finite s2 m2 e2 =>
      Bool.eqb s1 s2 && Pos.eqb m1 m2 && Z.eqb e1 e2
  | _, _ => false
  end.

(** The candidates with [k] digits for [x = p / q], [10^(n-1) <= x < 10^n]:
    the decimal just below and the one just above; the result is the one
    that reads back as [x], the nearer of the two when both do. *)
Definition shortest_at (x : number) (p q n : Z) (k : Z) : option (Z * Z) :=
  let '(lo, half) := scaled p q (n - k) in
  let hi := if lo + 1 =? 10 ^ k then (10 ^ (k - 1), n + 1) else (lo + 1, n) in
  let ok_lo := num_eqb (num_of_decimal false lo (n - k)) x in
  let ok_hi := num_eqb (num_of_decimal false (fst hi) (snd hi - k)) x in
  match ok_lo, ok_hi with
  | true, false => Some (lo, n)
  | false, true => Some hi
  | true, true =>
      match half with
      | Lt => Some (lo, n)
      | Gt => Some hi
      | Eq => if Z.even lo then Some (lo, n) else Some hi
      end
  | false, false => None
  end.

Fixpoint shortest_from (fuel : nat) (x : number) (p q n : Z) (k : Z) : Z * Z * Z :=
  match fuel with
  | O => (fst (scaled p q (n - k)), n, k)
  | S f =>
      match shortest_at x p q n k with
      | Some (s, n') => (s, n', k)
      | None => shortest_from f x p q n (k + 1)
      end
  end.

(** The digits [s], the exponent [n] and the number of digits [k] of step 5. *)
Definition shortest_digits (m : positive) (e : Z) : Z * Z * Z :=
  let x := binary_round prec emax false m e in
  let '(p, q) := frac_of m e in
  shortest_from 17 x p q (floor_log10 p q + 1) 1.

Definition exponent_suffix (n : Z) : string :=
  "e" ++ (if 0 <=? n - 1 then "+" else "-") ++ dec_of_Z (Z.abs (n - 1)).

Definition NumberToString_pos (m : positive) (e : Z) : string :=
  let '(s, n, k) := shortest_digits m e in
  let ds := dec_of_Z s in
  if (k <=? n) && (n <=? 21) then ds ++ repeat_char "0" (Z.to_nat (n - k))
  else if (0 <? n) && (n <=? 21) then take (Z.to_nat n) ds ++ "." ++ drop (Z.to_nat n) ds
  else if (-6 <? n) && (n <=? 0) then "0." ++ repeat_char "0" (Z.to_nat (- n)) ++ ds
  else if k =? 1 then ds ++ exponent_suffix n
  else take 1 ds ++ "." ++ drop 1 ds ++ exponent_suffix n.

Definition NumberToString (x : number) : string :=
  match x with
  | S754_nan => "NaN"
  | S754_zero _ => "0"
  | S754_infinity s => if s then "-Infinity" else "Infinity"
  | S754_finite s m e => (if s then "-" else "") ++ NumberToString_pos m e
  end.

(** ** Number.prototype.toFixed (ECMA-262, 21.1.3.3) *)

(** The integer [n] for which [n / 10^f - x] is as close to zero as
    possible, the larger one when there are two, for [x = m * 2^e]. *)
Definition nearest_scaled (f : Z) (m : positive) (e : Z) : Z :=
  match e with
  | Zneg k => (2 * Zpos m * 10 ^ f + 2 ^ Zpos k) / (2 * 2 ^ Zpos k)
  | _ => Zpos m * 2 ^ e * 10 ^ f
  end.

(** [10^21 <= m * 2^e]. *)
Definition at_least_1e21 (m : positive) (e : Z) : bool :=
  let '(p, q) := frac_of m e in 10 ^ 21 * q <=? p.

(** Steps 11.b and 11.c for an integer [n >= 0] and [f > 0] digits. *)
Definition fixed_digits (f : nat) (n : Z) : string :=
  let m := dec_of_Z n in
  let k := String.length m in
  let m := if (k <=? f)%nat then repeat_char "0" (f + 1 - k) ++ m else m in
  let k := if (k <=? f)%nat then (f + 1)%nat else k in
  take (k - f) m ++ "." ++ drop (k - f) m.

Definition toFixed (f : nat) (x : number) : string :=
  match x with
  | S754_finite s m e =>
      (if s then "-" else "") ++
      (if at_least_1e21 m e then NumberToString_pos m e
       else fixed_digits f (nearest_scaled (Z.of_nat f) m e))
  | S754_zero _ => fixed_digits f 0
  | _ => NumberToString x
  end.

(** ** Conversions of values *)

(** [Array.prototype.join] on the strings of the elements. *)
Fixpoint join_strings (sep : string) (l : list string) : string :=
  match l with
  | [] => ""
  | [s] => s
  | s :: r => s ++ sep ++ join_strings sep r
  end.

(** ToString.  An array is joined with commas, [null] and [undefined]
    elements giving the empty string.  An ordinary object is
    ["[object Object]"], unless it has an own property [toString]: a value
    read from JSON is not callable, [valueOf] then returns the object
    itself, and OrdinaryToPrimitive throws a TypeError. *)
Fixpoint ToString (v : value) : result string :=
  match v with
  | VUndefined => Ok "undefined"
  | VNull => Ok "null"
  | VBool b => Ok (if b then "true" else "false")
  | VNum n => Ok (NumberToString n)
  | VStr s => Ok s
  | VArr l =>
      let* parts := mapM (fun x => if nullish x then Ok "" else ToString x) l in
      Ok (join_strings "," parts)
  | VObj props => if has_own "toString" props then Throw TypeError else Ok "[object Object]"
  end.

(** ToNumber.  An object is first converted with ToPrimitive, hint number:
    [valueOf] yields no primitive, so the string of the object is read. *)
Definition ToNumber (v : value) : result number :=
  match v with
  | VUndefined => Ok NaN
  | VNull => Ok (S754_zero false)
  | VBool b => Ok (if b then num_of_Z 1 else S754_zero false)
  | VNum n => Ok n
  | VStr s => Ok (StringToNumber s)
  | VArr _ | VObj _ =>
      let* s := ToString v in
      Ok (StringToNumber s)
  end.

(** [a * b]. *)
Definition js_mul (a b : value) : result number :=
  let* x := ToNumber a in
  let* y := ToNumber b in
  Ok (num_mul x y).

(** A template literal [`${v}suffix`]. *)
Definition template_suffix (v : value) (suffix : string) : result string :=
  let* s := ToString v in
  Ok (s ++ suffix).

(** An array index: the canonical numeral of an integer from 0 to
    [2^32 - 2]. *)
Definition array_index (key : string) : option Z :=
  match key with
  | "" => None
  | String c r =>
      if all_digits key && (negb (Ascii.eqb c "0") || String.eqb r "") then
        let '(v, _, _) := read_digits key 0 0 in
        if v <=? 4294967294 then Some v else None
      else None
  end.

(** The bindings of a property list that count: [lookup] reads the first
    binding of a key, so a later binding of a key in [seen] is dead. *)
Fixpoint first_bindings (seen : list string) (props : list (string * value))
  : list (string * value) :=
  match props with
  | [] => []
  | (k, v) :: r =>
      if existsb (String.eqb k) seen then first_bindings seen r
      else (k, v) :: first_bindings (k :: seen) r
  end.

Fixpoint insert_index (i : Z) (v : value) (sorted : list (Z * value)) : list (Z * value) :=
  match sorted with
  | [] => [(i, v)]
  | (j, w) :: r => if i <? j then (i, v) :: sorted else (j, w) :: insert_index i v r
  end.

(** The values of the own properties in the order of
    OrdinaryOwnPropertyKeys: the array indices in ascending order, then
    the other keys in the order of their creation. *)
Definition own_values (props : list (string * value)) : list value :=
  let live := first_bindings [] props in
  let indexed :=
    fold_right (fun kv acc =>
                  match array_index (fst kv) with
                  | Some i => insert_index i (snd kv) acc
                  | None => acc
                  end) [] live in
  let named :=
    filter (fun kv => match array_index (fst kv) with
                      | Some _ => false
                      | None => true
                      end) live in
  map snd indexed ++ map snd named.

(** [Object.values(v)]: the elements of an array, the values of the own
    properties of an object, the code units of a string, nothing for a
    Number or a Boolean. *)
Definition chars_of (s : string) : list value :=
  map VStr (units_of (String.length s) s).

Definition Object_values (v : value) : result (list value) :=
  match v with
  | VUndefined | VNull => Throw TypeError
  | VObj props => Ok (own_values props)
  | VArr l => Ok l
  | VStr s => Ok (chars_of s)
  | VBool _ | VNum _ => Ok []
  end.

(** [l.join(sep)] on an array [l]. *)
Definition Array_join (l : list value) (sep : string) : result string :=
  let* parts := mapM (fun x => if nullish x then Ok "" else ToString x) l in
  Ok (join_strings sep parts).

(** [v.map(f)]: only an array has a [map] method. *)
Definition call_map (v : value) (f : value -> result value) : result (list value) :=
  match v with
  | VArr l => mapM f l
  | _ => Throw TypeError
  end.

(** [v.filter(p)]: only an array has a [filter] method. *)
Definition call_filter (v : value) (p : value -> result bool) : result (list value) :=
  match v with
  | VArr l => filterM p l
  | _ => Throw TypeError
  end.

(** ** Strict equality *)

(** [a === b] where [b] is a string. *)
Definition strict_eq_string (a : value) (b : string) : bool :=
  match a with
  | VStr s => String.eqb s b
  | _ => false
  end.

(** ** The host: Unicode tables, locale and time zone *)

Record Host : Type := {
  (** [String.prototype.toLowerCase.call(s)] *)
  toLowerCase : string -> string;
  (** [String.prototype.toUpperCase.call(s)] *)
  toUpperCase : string -> string;
  (** [Number.prototype.toLocaleString.call(n)] *)
  numberToLocaleString : number -> string;
  (** [new Date(t).toLocaleDateString()] for a time value [t] *)
  dateToLocaleDateString : number -> string;
  (** [new Date(t).toLocaleTimeString()] for a time value [t] *)
  dateToLocaleTimeString : number -> string
}.

Section WithHost.

Context (host : Host).

(** [v.toLocaleString()].  [Object.prototype.toLocaleString] calls
    [toString]; [Array.prototype.toLocaleString] calls the method of each
    element and separates the results with a comma. *)
Fixpoint call_toLocaleString (v : value) : result string :=
  match v with
  | VUndefined | VNull => Throw TypeError
  | VBool b => Ok (if b then "true" else "false")
  | VNum n => Ok (numberToLocaleString host n)
  | VStr s => Ok s
  | VArr l =>
      let* parts := mapM (fun x => if nullish x then Ok "" else call_toLocaleString x) l in
      Ok (join_strings "," parts)
  | VObj props =>
      if has_own "toLocaleString" props || has_own "toString" props
      then Throw TypeError
      else Ok "[object Object]"
  end.

(** [v?.toLowerCase()]: [undefined] when [v] is [null] or [undefined], the
    lower-cased string when [v] is a string; no other value read from JSON
    has a callable [toLowerCase]. *)
Definition optional_toLowerCase (v : value) : result value :=
  match v with
  | VUndefined | VNull => Ok VUndefined
  | VStr s => Ok (VStr (toLowerCase host s))
  | _ => Throw TypeError
  end.

(** [new Date(v * 1000).toLocaleTimeString()]. *)
Definition epoch_toLocaleTimeString (v : value) : result string :=
  let* t := js_mul v (VNum (num_of_Z 1000)) in
  Ok (dateToLocaleTimeString host t).

(** [new Date(v * 1000).toLocaleDateString()]. *)
Definition epoch_toLocaleDateString (v : value) : result string :=
  let* t := js_mul v (VNum (num_of_Z 1000)) in
  Ok (dateToLocaleDateString host t).

End WithHost.

(** ** Requests, responses and the upstream call *)

(** What [res] was told to send: [res.json(body)], or
    [res.status(code).send(text)].  The body is the object handed to
    [res.json]; its serialisation, which leaves out the properties that
    are [undefined] and writes NaN as [null], is not part of the model. *)
Inductive response : Type :=
| Json (status : Z) (body : value)
| Text (status : Z) (message : string).

(** What the third-party service does with a GET request. *)
Inductive upstream_reply : Type :=
| NetworkFailure                          (* no response: unreachable, timeout *)
| HttpReply (status : Z) (payload : value). (* a response and its decoded body *)

Record axios_response : Type := { data : value }.

(** [await axios.get(url)]: the promise is rejected when there is no
    response and when the status is outside of 2xx. *)
Definition axios_get (reply : upstream_reply) : result axios_response :=
  match reply with
  | NetworkFailure => Throw AxiosError
  | HttpReply status payload =>
      if (200 <=? status) && (status <? 300) then Ok {| data := payload |}
      else Throw AxiosError
  end.

(** A handler answers at once, or issues one GET and answers from its
    outcome. *)
Inductive handler : Type :=
| Respond (r : response)
| AxiosGet (url : string) (k : upstream_reply -> response).

(** Running a handler against an upstream service: the URLs requested and
    the response sent. *)
Definition run (upstream : string -> upstream_reply) (h : handler) : list string * response :=
  match h with
  | Respond r => ([], r)
  | AxiosGet url k => ([url], k (upstream url))
  end.

(** [process.env]: a variable that is not set reads as [undefined]. *)
Record Config : Type := {
  apiKey : option string;
  currencyConverterApiKey : option string;
  googleMapsApiKey : option string
}.

Definition env_text (v : option string) : string :=
  match v with
  | Some s => s
  | None => "undefined"
  end.

Definition NotAvailable : value := VStr "Not Available".

Section Handlers.

Context (host : Host) (config : Config).

(** *** GET /currentWeather/:city/:country *)

Definition currentWeatherBody (city country : string) (weatherData : value) : result value :=
  let* weather := get weatherData "weather" in
  let* weather0 := get0 weather in
  let* description := get weather0 "description" in
  let* main := get weatherData "main" in
  let* temp := get main "temp" in
  let* temperature := template_suffix temp "°C" in
  let* feels := get main "feels_like" in
  let* feels_like := template_suffix feels "°C" in
  let* hum := get main "humidity" in
  let* humidity := template_suffix hum "%" in
  let* wind := get weatherData "wind" in
  let* speed := get wind "speed" in
  let* wind_speed := template_suffix speed " m/s" in
  let* sys := get weatherData "sys" in
  let* sunrise_s := get sys "sunrise" in
  let* sunrise := epoch_toLocaleTimeString host sunrise_s in
  let* sunset_s := get sys "sunset" in
  let* sunset := epoch_toLocaleTimeString host sunset_s in
  Ok (VObj [("location", VStr (city ++ ", " ++ country));
            ("description", description);
            ("temperature", VStr temperature);
            ("feels_like", VStr feels_like);
            ("humidity", VStr humidity);
            ("wind_speed", VStr wind_speed);
            ("sunrise", VStr sunrise);
            ("sunset", VStr sunset)]).

Definition getCurrentWeather (city country : string) : handler :=
  let url := "https://api.openweathermap.org/data/2.5/weather?q=" ++ city ++ "," ++ country
             ++ "&units=metric&appid=" ++ env_text (apiKey config) in
  AxiosGet url (fun reply =>
    try_catch
      (let* response := axios_get reply in
       let weatherData := data response in
       let* body := currentWeatherBody city country weatherData in
       Ok (Json 200 body))
      (fun error => Text 500 "Error retrieving current weather")).

(** *** GET /forecast/:city/:country *)

Definition forecastEntry (entry : value) : result value :=
  let* dt := get entry "dt" in
  let* date := epoch_toLocaleDateString host dt in
  let* dt' := get entry "dt" in
  let* time := epoch_toLocaleTimeString host dt' in
  let* main := get entry "main" in
  let* temp := get main "temp" in
  let* temperature := template_suffix temp "°C" in
  let* feels := get main "feels_like" in
  let* feels_like := template_suffix feels "°C" in
  let* weather := get entry "weather" in
  let* weather0 := get0 weather in
  let* main_label := get weather0 "main" in
  let* description := get weather0 "description" in
  let* wind := get entry "wind" in
  let* speed := get wind "speed" in
  let* wind_speed := template_suffix speed " m/s" in
  let* hum := get main "humidity" in
  let* humidity := template_suffix hum "%" in
  Ok (VObj [("date", VStr date);
            ("time", VStr time);
            ("temperature", VStr temperature);
            ("feels_like", VStr feels_like);
            ("main", main_label);
            ("description", description);
            ("wind_speed", VStr wind_speed);
            ("humidity", VStr humidity)]).

Definition getForecast (city country : string) : handler :=
  let url := "https://api.openweathermap.org/data/2.5/forecast?q=" ++ city ++ "," ++ country
             ++ "&units=metric&appid=" ++ env_text (apiKey config) in
  AxiosGet url (fun reply =>
    try_catch
      (let* response := axios_get reply in
       let* list := get (data response) "list" in
       let* forecast := call_map list forecastEntry in
       Ok (Json 200 (VObj [("location", VStr (city ++ ", " ++ country));
                           ("forecast", VArr forecast)])))
      (fun error => Text 500 "Error retrieving 5-day forecast")).

(** *** GET /country/:countryName *)

Definition capitalCity_of (country : value) : result value :=
  let* capital := get country "capital" in
  if truthy capital then get0 capital else Ok NotAvailable.

Definition languages_of (country : value) : result value :=
  let* languages := get country "languages" in
  if truthy languages then
    let* names := Object_values languages in
    let* joined := Array_join names ", " in
    Ok (VStr joined)
  else Ok NotAvailable.

Definition flag_of (country : value) : result value :=
  let* flags := get country "flags" in
  let* svg := get flags "svg" in
  Ok (if truthy svg then svg else NotAvailable).

Definition countryInfo (country : value) : result value :=
  let* name := get country "name" in
  let* common := get name "common" in
  let* capitalCity := capitalCity_of country in
  let* pop := get country "population" in
  let* population := call_toLocaleString host pop in
  let* a := get country "area" in
  let* a_text := call_toLocaleString host a in
  let area := a_text ++ " km²" in
  let* officialLanguage := languages_of country in
  let* cur := get country "currencies" in
  let* currencies :=
    if truthy cur then
      let* entries := Object_values cur in
      let* names := mapM (fun c => get c "name") entries in
      let* joined := Array_join names ", " in
      Ok (VStr joined)
    else Ok NotAvailable in
  let* region := get country "region" in
  let* sub := get country "subregion" in
  let subregion := if truthy sub then sub else NotAvailable in
  let* flag := flag_of country in
  Ok (VObj [("countryName", common);
            ("capitalCity", capitalCity);
            ("population", VStr population);
            ("area", VStr area);
            ("officialLanguage", officialLanguage);
            ("currencies", currencies);
            ("region", region);
            ("subregion", subregion);
            ("flag", flag)]).

Definition getCountryInfo (countryName : string) : handler :=
  AxiosGet ("https://restcountries.com/v3.1/name/" ++ countryName) (fun reply =>
    try_catch
      (let* response := axios_get reply in
       let* country := get0 (data response) in
       let* info := countryInfo country in
       Ok (Json 200 info))
      (fun error => Text 500 ("Error retrieving information about " ++ countryName))).

(** *** GET /continent/:continentName *)

(** The callback of [filter]. *)
Definition inContinent (continentName : string) (country : value) : result bool :=
  let* region := get country "region" in
  let* lowered := optional_toLowerCase host region in
  Ok (strict_eq_string lowered (toLowerCase host continentName)).

(** The callback of [map]. *)
Definition continentEntry (country : value) : result value :=
  let* name := get country "name" in
  let* common := get name "common" in
  let* capitalCity := capitalCity_of country in
  let* pop := get country "population" in
  let* population := call_toLocaleString host pop in
  let* a := get country "area" in
  let* area :=
    if truthy a then
      let* a_text := call_toLocaleString host a in
      Ok (VStr (a_text ++ " km²"))
    else Ok NotAvailable in
  let* languages := languages_of country in
  let* flag := flag_of country in
  Ok (VObj [("countryName", common);
            ("capitalCity", capitalCity);
            ("population", VStr population);
            ("area", area);
            ("languages", languages);
            ("flag", flag)]).

Definition continentLabel (continentName : string) : string :=
  toUpperCase host (charAt0 continentName) ++ toLowerCase host (slice1 continentName).

Definition countriesInContinent (continentName : string) (catalog : value) : result (list value) :=
  let* kept := call_filter catalog (inContinent continentName) in
  mapM continentEntry kept.

Definition getCountriesByContinent (continentName : string) : handler :=
  AxiosGet "https://restcountries.com/v3.1/all" (fun reply =>
    try_catch
      (let* response := axios_get reply in
       let* countries := countriesInContinent continentName (data response) in
       Ok (Json 200 (VObj [("continent", VStr (continentLabel continentName));
                           ("numberOfCountries", VNum (num_of_Z (Z.of_nat (List.length countries))));
                           ("countries", VArr countries)])))
      (fun error => Text 500 ("Error retrieving list of countries in " ++ continentName))).

(** *** GET /convert/usd-to-eur and GET /convert/jpy-to-gbp *)

Definition convertUsdToEur (amountUSD : value) : handler :=
  if negb (truthy amountUSD) then
    Respond (Text 400 "Please provide an amount to convert.")
  else
    let url := "https://free.currconv.com/api/v7/convert?q=USD_EUR&compact=ultra&apiKey="
               ++ env_text (currencyConverterApiKey config) in
    AxiosGet url (fun reply =>
      try_catch
        (let* response := axios_get reply in
         let* conversionRate := get (data response) "USD_EUR" in
         let* product := js_mul amountUSD conversionRate in
         let convertedAmount := toFixed 2 product in
         let* original := template_suffix amountUSD " USD" in
         Ok (Json 200 (VObj [("fromCurrency", VStr "USD");
                             ("toCurrency", VStr "EUR");
                             ("originalAmount", VStr original);
                             ("convertedAmount", VStr (convertedAmount ++ " EUR"));
                             ("conversionRate", conversionRate)])))
        (fun error => Text 500 "Error converting USD to EUR")).

Definition convertJpyToGbp (amountJPY : value) : handler :=
  if negb (truthy amountJPY) then
    Respond (Text 400 "Please provide an amount to convert.")
  else
    let url := "https://free.currconv.com/api/v7/convert?q=JPY_GBP&compact=ultra&apiKey="
               ++ env_text (currencyConverterApiKey config) in
    AxiosGet url (fun reply =>
      try_catch
        (let* response := axios_get reply in
         let* conversionRate := get (data response) "JPY_GBP" in
         let* product := js_mul amountJPY conversionRate in
         let convertedAmount := toFixed 2 product in
         let* original := template_suffix amountJPY " JPY" in
         Ok (Json 200 (VObj [("fromCurrency", VStr "JPY");
                             ("toCurrency", VStr "GBP");
                             ("originalAmount", VStr original);
                             ("convertedAmount", VStr (convertedAmount ++ " GBP"));
                             ("conversionRate", conversionRate)])))
        (fun error => Text 500 "Error converting JPY to GBP")).

End Handlers.

(** ** A host: locale en-US, time zone UTC

    Used to run the handlers on concrete payloads.  The case mappings are
    those of the letters of Basic Latin and of Latin-1 Supplement, every
    other character being left as it is.  Numbers are grouped by
    thousands with at most three fraction digits, rounded half away from
    zero on their shortest decimal representation; dates are [M/D/YYYY]
    and times [h:mm:ss AM]. *)

(** A to Z, and U+00C0 to U+00DE but U+00D7, to their lower case. *)
Fixpoint latin1_lower (s : string) : string :=
  match s with
  | "" => ""
  | String a r =>
      let x := nat_of_ascii a in
      if ((65 <=? x) && (x <=? 90))%nat then String (ascii_of_nat (x + 32)) (latin1_lower r)
      else
        match r with
        | "" => String a ""
        | String b r' =>
            let y := nat_of_ascii b in
            if ((x =? 195) && (128 <=? y) && (y <=? 158) && negb (y =? 151))%nat
            then String a (String (ascii_of_nat (y + 32)) (latin1_lower r'))
            else String a (latin1_lower r)
        end
  end.

(** a to z, and U+00E0 to U+00FE but U+00F7, to their upper case; U+00DF to
    [SS], U+00FF to U+0178 and U+00B5 to U+039C. *)
Fixpoint latin1_upper (s : string) : string :=
  match s with
  | "" => ""
  | String a r =>
      let x := nat_of_ascii a in
      if ((97 <=? x) && (x <=? 122))%nat then String (ascii_of_nat (x - 32)) (latin1_upper r)
      else
        match r with
        | "" => String a ""
        | String b r' =>
            let y := nat_of_ascii b in
            if ((x =? 195) && (160 <=? y) && (y <=? 190) && negb (y =? 183))%nat
            then String a (String (ascii_of_nat (y - 32)) (latin1_upper r'))
            else if ((x =? 195) && (y =? 159))%nat then String "S" (String "S" (latin1_upper r'))
            else if ((x =? 195) && (y =? 191))%nat
            then String (ascii_of_nat 197) (String (ascii_of_nat 184) (latin1_upper r'))
            else if ((x =? 194) && (y =? 181))%nat
            then String (ascii_of_nat 206) (String (ascii_of_nat 156) (latin1_upper r'))
            else String a (latin1_upper r)
        end
  end.

Fixpoint group_thousands (fuel : nat) (n : Z) : string :=
  match fuel with
  | O => dec_of_Z n
  | S f =>
      if n <? 1000 then dec_of_Z n
      else
        let r := n mod 1000 in
        group_thousands f (n / 1000) ++ "," ++
        repeat_char "0" (3 - String.length (dec_of_Z r)) ++ dec_of_Z r
  end.

Definition fraction3 (r : Z) : string :=
  if r =? 0 then ""
  else if r mod 100 =? 0 then "." ++ dec_of_Z (r / 100)
  else if r mod 10 =? 0 then "." ++ repeat_char "0" (2 - String.length (dec_of_Z (r / 10))) ++ dec_of_Z (r / 10)
  else "." ++ repeat_char "0" (3 - String.length (dec_of_Z r)) ++ dec_of_Z r.

Definition enUS_number (x : number) : string :=
  match x with
  | S754_nan => "NaN"
  | S754_infinity s => if s then "-∞" else "∞"
  | S754_zero s => if s then "-0" else "0"
  | S754_finite sg m e =>
      let '(s, n, k) := shortest_digits m e in
      let d := k - n - 3 in
      let thousandths := if 0 <? d then (s + 5 * 10 ^ (d - 1)) / 10 ^ d else s * 10 ^ (- d) in
      (if sg then "-" else "") ++
      group_thousands (Z.to_nat (Z.log2 thousandths)) (thousandths / 1000) ++
      fraction3 (thousandths mod 1000)
  end.

(** The time value of [new Date(t)] in milliseconds, if the date is valid. *)
Definition time_value (t : number) : option Z :=
  match t with
  | S754_zero _ => Some 0
  | S754_finite s m e =>
      let '(p, q) := frac_of m e in
      let ms := p / q in
      if 8640000000000000 <? ms then None else Some (if s then - ms else ms)
  | _ => None
  end.

(** Year, month and day of a number of days since 1970-01-01. *)
Definition civil_of_days (days : Z) : Z * Z * Z :=
  let z := days + 719468 in
  let era := z / 146097 in
  let doe := z - era * 146097 in
  let yoe := (doe - doe / 1460 + doe / 36524 - doe / 146096) / 365 in
  let doy := doe - (365 * yoe + yoe / 4 - yoe / 100) in
  let mp := (5 * doy + 2) / 153 in
  let d := doy - (153 * mp + 2) / 5 + 1 in
  let m := if mp <? 10 then mp + 3 else mp - 9 in
  let y := yoe + era * 400 + (if m <=? 2 then 1 else 0) in
  (y, m, d).

Definition two_digits (n : Z) : string :=
  (if n <? 10 then "0" else "") ++ dec_of_Z n.

Definition utc_date (t : number) : string :=
  match time_value t with
  | None => "Invalid Date"
  | Some ms =>
      let '(y, m, d) := civil_of_days (ms / 86400000) in
      let year_of_era := if y <=? 0 then 1 - y else y in
      dec_of_Z m ++ "/" ++ dec_of_Z d ++ "/" ++ dec_of_Z year_of_era
  end.

Definition utc_time (t : number) : string :=
  match time_value t with
  | None => "Invalid Date"
  | Some ms =>
      let secs := (ms / 1000) mod 86400 in
      let h := secs / 3600 in
      let h12 := if h mod 12 =? 0 then 12 else h mod 12 in
      dec_of_Z h12 ++ ":" ++ two_digits ((secs / 60) mod 60) ++ ":" ++ two_digits (secs mod 60)
      ++ (if h <? 12 then " AM" else " PM")
  end.

Definition enUS_UTC : Host := {|
  toLowerCase := latin1_lower;
  toUpperCase := latin1_upper;
  numberToLocaleString := enUS_number;
  dateToLocaleDateString := utc_date;
  dateToLocaleTimeString := utc_time
|}.

Definition noKeys : Config := {|
  apiKey := None;
  currencyConverterApiKey := None;
  googleMapsApiKey := None
|}.

(** A Number written as in a JSON text. *)
Definition num (literal : string) : value := VNum (StringToNumber literal).

(** ** Routing and observation *)

(** The response a handler sends when the upstream service answers [reply]
    to whatever it is asked. *)
Definition respond_to (h : handler) (reply : upstream_reply) : response :=
  snd (run (fun _ => reply) h).

(** The data-fetching routes registered with [app.get]. *)
Inductive route : Type :=
| CurrentWeather (city country : string)
| Forecast (city country : string)
| Country (countryName : string)
| Continent (continentName : string)
| UsdToEur (amount : value)
| JpyToGbp (amount : value).

Definition dispatch (host : Host) (config : Config) (r : route) : handler :=
  match r with
  | CurrentWeather city country => getCurrentWeather host config city country
  | Forecast city country => getForecast host config city country
  | Country countryName => getCountryInfo host countryName
  | Continent continentName => getCountriesByContinent host continentName
  | UsdToEur amount => convertUsdToEur config amount
  | JpyToGbp amount => convertJpyToGbp config amount
  end.

(** The text each route sends with status 500. *)
Definition failure_message (r : route) : string :=
  match r with
  | CurrentWeather _ _ => "Error retrieving current weather"
  | Forecast _ _ => "Error retrieving 5-day forecast"
  | Country countryName => "Error retrieving information about " ++ countryName
  | Continent continentName => "Error retrieving list of countries in " ++ continentName
  | UsdToEur _ => "Error converting USD to EUR"
  | JpyToGbp _ => "Error converting JPY to GBP"
  end.

(** A field of a JSON body. *)
Definition field (body : value) (key : string) : value :=
  match body with
  | VObj props =>
      match lookup key props with
      | Some v => v
      | None => VUndefined
      end
  | _ => VUndefined
  end.

(** ** Notions of the specification *)

(** Two strings are equal up to letter case: they have the same lower
    case, by the case mapping of the host. *)
Definition equal_ignoring_case (host : Host) (a b : string) : Prop :=
  toLowerCase host a = toLowerCase host b.

(** The region of a country is absent: the property is missing or [null]. *)
Definition region_absent (country : value) : bool :=
  match country with
  | VObj props =>
      match lookup "region" props with
      | None | Some VNull | Some VUndefined => true
      | Some _ => false
      end
  | _ => false
  end.

(** The region of a country is a string that names another continent. *)
Definition region_differs (host : Host) (continentName : string) (country : value) : Prop :=
  exists props r, country = VObj props /\ lookup "region" props = Some (VStr r)
                  /\ ~ equal_ignoring_case host r continentName.

(** [n] hundredths written with exactly two decimal places. *)
Definition two_decimals (n : Z) : string :=
  dec_of_Z (n / 100) ++ "." ++
  String (digit_char ((n / 10) mod 10)) (String (digit_char (n mod 10)) "").

(** The Numbers [toFixed] writes in fixed notation: zero and the finite
    ones below [10^21] in magnitude. *)
Definition fixed_range (x : number) : bool :=
  match x with
  | S754_zero _ => true
  | S754_finite _ m e => negb (at_least_1e21 m e)
  | _ => false
  end.

(** The magnitude of a Number in [fixed_range]. *)
Definition magnitude (x : number) : Q :=
  match x with
  | S754_finite _ m e => num_abs_Q m e
  | _ => 0%Q
  end.

Definition sign_text (x : number) : string :=
  match x with
  | S754_finite true _ _ => "-"
  | _ => ""
  end.

(** The payload of a currency route has the expected shape: an object
    whose property [pair] is a Number. *)
Definition rate_shape (pair : string) (payload : value) : Prop :=
  exists props n, payload = VObj props /\ lookup pair props = Some (VNum n).

(** A payload of the weather service. *)
Definition sampleWeather : value :=
  VObj [("weather", VArr [VObj [("main", VStr "Clouds"); ("description", VStr "broken clouds")]]);
        ("main", VObj [("temp", num "21.5"); ("feels_like", num "20.93"); ("humidity", num "64")]);
        ("wind", VObj [("speed", num "4.12")]);
        ("sys", VObj [("sunrise", num "1698130800"); ("sunset", num "1698170400")])].

Definition sampleForecastEntry (dt temp : string) : value :=
  VObj [("dt", num dt);
        ("main", VObj [("temp", num temp); ("feels_like", num temp); ("humidity", num "70")]);
        ("weather", VArr [VObj [("main", VStr "Rain"); ("description", VStr "light rain")]]);
        ("wind", VObj [("speed", num "3.6")])].

(** Countries as the country service describes them. *)
Definition sampleCountry (name region : string) : value :=
  VObj [("name", VObj [("common", VStr name)]);
        ("capital", VArr [VStr (name ++ " City")]);
        ("population", num "1234567");
        ("area", num "9876.5");
        ("languages", VObj [("eng", VStr "English"); ("fra", VStr "French")]);
        ("currencies", VObj [("XYZ", VObj [("name", VStr "Crown"); ("symbol", VStr "c")])]);
        ("region", VStr region);
        ("subregion", VStr "Northern");
        ("flags", VObj [("svg", VStr "https://flags.example/x.svg")])].

(** A country described only by its mandatory fields. *)
Definition bareCountry (name region : string) : value :=
  VObj [("name", VObj [("common", VStr name)]);
        ("population", num "1000");
        ("region", VStr region);
        ("flags", VObj [("svg", VStr "https://flags.example/x.svg")])].

(** A country with no region. *)
Definition stateless (name : string) : value :=
  VObj [("name", VObj [("common", VStr name)]);
        ("population", num "0");
        ("flags", VObj [])].

(** The field [out] of a response is the upstream value [v] followed by
    [suffix]; for a Number [v] the text is the one of Number::toString. *)
Definition suffixed (v : value) (suffix : string) (out : value) : Prop :=
  exists s, ToString v = Ok s /\ out = VStr (s ++ suffix).


(** The integer of step 11.a of [toFixed(2)]: the number of hundredths
    nearest to the magnitude of [x]. *)
Definition hundredths (x : number) : Z :=
  match x with
  | S754_finite _ m e => nearest_scaled 2 m e
  | _ => 0
  end.

(** A decimal numeral with exactly two decimal places: an optional minus
    sign, at least one digit, a point and two digits. *)
Definition is_two_decimal (s : string) : bool :=
  let body := match s with String "-" r => r | _ => s end in
  let k := String.length body in
  (4 <=? k)%nat
  && all_digits (take (k - 3) body)
  && String.eqb (take 1 (drop (k - 3) body)) "."
  && all_digits (drop (k - 2) body).


(** The test the filter callback makes, on a country it can read: the
    region is a string equal to the continent name up to letter case. *)
Definition regionMatches (host : Host) (continentName : string) (country : value) : bool :=
  match get country "region" with
  | Ok (VStr r) => String.eqb (toLowerCase host r) (toLowerCase host continentName)
  | _ => false
  end.

Definition is_array (v : value) : bool :=
  match v with
  | VArr _ => true
  | _ => false
  end.

(** The JSON body that the [try] block of a route builds from the body of
    the upstream response; it throws where the block does. *)
Definition transform (host : Host) (r : route) (payload : value) : result value :=
  match r with
  | CurrentWeather city country => currentWeatherBody host city country payload
  | Forecast city country =>
      let* list := get payload "list" in
      let* forecast := call_map list (forecastEntry host) in
      Ok (VObj [("location", VStr (city ++ ", " ++ country)); ("forecast", VArr forecast)])
  | Country _ =>
      let* country := get0 payload in
      countryInfo host country
  | Continent continentName =>
      let* countries := countriesInContinent host continentName payload in
      Ok (VObj [("continent", VStr (continentLabel host continentName));
                ("numberOfCountries", VNum (num_of_Z (Z.of_nat (List.length countries))));
                ("countries", VArr countries)])
  | UsdToEur amount =>
      let* conversionRate := get payload "USD_EUR" in
      let* product := js_mul amount conversionRate in
      let* original := template_suffix amount " USD" in
      Ok (VObj [("fromCurrency", VStr "USD");
                ("toCurrency", VStr "EUR");
                ("originalAmount", VStr original);
                ("convertedAmount", VStr (toFixed 2 product ++ " EUR"));
                ("conversionRate", conversionRate)])
  | JpyToGbp amount =>
      let* conversionRate := get payload "JPY_GBP" in
      let* product := js_mul amount conversionRate in
      let* original := template_suffix amount " JPY" in
      Ok (VObj [("fromCurrency", VStr "JPY");
                ("toCurrency", VStr "GBP");
                ("originalAmount", VStr original);
                ("convertedAmount", VStr (toFixed 2 product ++ " GBP"));
                ("conversionRate", conversionRate)])
  end.

(** An object of string-valued properties, as [languages] is upstream. *)
Definition string_props (entries : list (string * string)) : value :=
  VObj (map (fun entry => (fst entry, VStr (snd entry))) entries).


(** *** GET /api/maps-api-key *)

(** [res.json({ apiKey: googleMapsApiKey })]. *)
Definition getMapsApiKey (config : Config) : handler :=
  Respond (Json 200 (VObj [("apiKey",
                            match googleMapsApiKey config with
                            | Some key => VStr key
                            | None => VUndefined
                            end)])).

(** The credential a route reads from the configuration, if any. *)
Definition credential_of (config : Config) (r : route) : option string :=
  match r with
  | CurrentWeather _ _ | Forecast _ _ => apiKey config
  | UsdToEur _ | JpyToGbp _ => currencyConverterApiKey config
  | Country _ | Continent _ => None
  end.

(** * Properties *)

(** ** The error monad and the array callbacks *)

Lemma mapM_Forall2 {A B : Type} (f : A -> result B) (l : list A) (ys : list B) :
  mapM f l = Ok ys <-> Forall2 (fun x y => f x = Ok y) l ys.
Proof.
  revert ys. induction l as [|x r IH]; intros ys; simpl.
  - split.
    + intros H. injection H as <-. constructor.
    + intros H. inversion H. reflexivity.
  - destruct (f x) as [y|e] eqn:Hx; simpl.
    + destruct (mapM f r) as [zs|e] eqn:Hr; simpl.
      * split.
        -- intros H. injection H as <-. constructor; [exact Hx|]. apply IH. reflexivity.
        -- intros H. inversion H as [|? y' ? zs' Hy Hrest]; subst.
           rewrite Hx in Hy. injection Hy as <-.
           apply IH in Hrest. injection Hrest as <-. reflexivity.
      * split; [discriminate|].
        intros H. inversion H as [|? y' ? zs' Hy Hrest]; subst.
        apply IH in Hrest. discriminate.
    + split; [discriminate|].
      intros H. inversion H as [|? y' ? zs' Hy Hrest]; subst. congruence.
Qed.

Lemma mapM_length {A B : Type} (f : A -> result B) (l : list A) (ys : list B) :
  mapM f l = Ok ys -> List.length ys = List.length l.
Proof.
  intros H. apply mapM_Forall2 in H. symmetry. eapply Forall2_length. exact H.
Qed.

Lemma axios_get_2xx (status : Z) (payload : value) :
  200 <= status < 300 -> axios_get (HttpReply status payload) = Ok {| data := payload |}.
Proof.
  intros [Hlo Hhi]. unfold axios_get.
  apply Z.leb_le in Hlo. apply Z.ltb_lt in Hhi. rewrite Hlo, Hhi. reflexivity.
Qed.

Lemma axios_get_ok (reply : upstream_reply) (r : axios_response) :
  axios_get reply = Ok r ->
  exists status, reply = HttpReply status (data r) /\ 200 <= status < 300.
Proof.
  destruct reply as [|status payload]; simpl; [discriminate|].
  destruct (200 <=? status) eqn:Hlo; destruct (status <? 300) eqn:Hhi; simpl; try discriminate.
  intros H. injection H as <-. exists status. split; [reflexivity|].
  split; [apply Z.leb_le, Hlo | apply Z.ltb_lt, Hhi].
Qed.

(** ** Currency conversion: the amount must be present *)

(** C3: on both currency routes a request without [amount] is answered
    with status 400 and the prompt message, and no upstream request is
    issued; the rate is requested, once, only for an amount that is
    present. *)
Theorem missing_amount_is_rejected (config : Config) (upstream : string -> upstream_reply) :
  run upstream (convertUsdToEur config VUndefined)
    = ([], Text 400 "Please provide an amount to convert.")
  /\ run upstream (convertJpyToGbp config VUndefined)
    = ([], Text 400 "Please provide an amount to convert.")
  /\ (forall amount,
        fst (run upstream (convertUsdToEur config amount))
        = if truthy amount
          then ["https://free.currconv.com/api/v7/convert?q=USD_EUR&compact=ultra&apiKey="
                ++ env_text (currencyConverterApiKey config)]
          else [])
  /\ (forall amount,
        fst (run upstream (convertJpyToGbp config amount))
        = if truthy amount
          then ["https://free.currconv.com/api/v7/convert?q=JPY_GBP&compact=ultra&apiKey="
                ++ env_text (currencyConverterApiKey config)]
          else []).
Proof.
  split; [reflexivity|]. split; [reflexivity|].
  split; intros amount.
  - unfold convertUsdToEur. destruct (truthy amount); reflexivity.
  - unfold convertJpyToGbp. destruct (truthy amount); reflexivity.
Qed.

(** ** Country information: the first match *)

(** C7: the response of [getCountryInfo] is built from the first element
    of the upstream list alone, whatever follows it. *)
Theorem first_match_only (host : Host) (countryName : string) (status : Z)
    (first : value) (rest : list value) :
  respond_to (getCountryInfo host countryName) (HttpReply status (VArr (first :: rest)))
    = respond_to (getCountryInfo host countryName) (HttpReply status (VArr [first]))
  /\ respond_to (getCountryInfo host countryName) (HttpReply 200 (VArr (first :: rest)))
    = match countryInfo host first with
      | Ok info => Json 200 info
      | Throw _ => Text 500 ("Error retrieving information about " ++ countryName)
      end.
Proof.
  split.
  - unfold respond_to, run, getCountryInfo, snd, axios_get.
    destruct ((200 <=? status) && (status <? 300)); reflexivity.
  - unfold respond_to, run, getCountryInfo, snd. simpl.
    destruct (countryInfo host first); reflexivity.
Qed.

(** ** Forecast: one entry for each upstream entry *)

(** C8: the forecast of a successful response has one entry for each
    upstream entry, in the same order and of the same number; it is sent
    whenever every entry can be mapped. *)
Theorem forecast_maps_every_entry (host : Host) (config : Config) (city country : string)
    (status : Z) (payload : value) (entries : list value) :
  200 <= status < 300 ->
  get payload "list" = Ok (VArr entries) ->
  (forall forecast,
      Forall2 (fun entry out => forecastEntry host entry = Ok out) entries forecast ->
      respond_to (getForecast host config city country) (HttpReply status payload)
        = Json 200 (VObj [("location", VStr (city ++ ", " ++ country));
                          ("forecast", VArr forecast)]))
  /\ (forall st body,
      respond_to (getForecast host config city country) (HttpReply status payload) = Json st body ->
      exists forecast,
        body = VObj [("location", VStr (city ++ ", " ++ country)); ("forecast", VArr forecast)]
        /\ List.length forecast = List.length entries
        /\ Forall2 (fun entry out => forecastEntry host entry = Ok out) entries forecast).
Proof.
  intros Hst Hlist.
  unfold respond_to, run, getForecast, snd.
  rewrite (axios_get_2xx _ _ Hst). cbn [bind data]. rewrite Hlist. cbn [bind call_map].
  split.
  - intros forecast H. apply mapM_Forall2 in H. rewrite H. reflexivity.
  - intros st body H.
    destruct (mapM (forecastEntry host) entries) as [forecast|e] eqn:Hmap; simpl in H.
    + injection H as <- <-. exists forecast. split; [reflexivity|]. split.
      * eapply mapM_length. exact Hmap.
      * apply mapM_Forall2. exact Hmap.
    + discriminate.
Qed.

Lemma forecast_maps_every_entry_witness :
  respond_to (getForecast enUS_UTC noKeys "Oslo" "NO")
    (HttpReply 200 (VObj [("cnt", num "2");
                          ("list", VArr [sampleForecastEntry "1698130800" "10.5";
                                         sampleForecastEntry "1698141600" "-2"])]))
  = Json 200 (VObj [("location", VStr "Oslo, NO");
       ("forecast", VArr [
          VObj [("date", VStr "10/24/2023"); ("time", VStr "7:00:00 AM");
                ("temperature", VStr "10.5°C"); ("feels_like", VStr "10.5°C");
                ("main", VStr "Rain"); ("description", VStr "light rain");
                ("wind_speed", VStr "3.6 m/s"); ("humidity", VStr "70%")];
          VObj [("date", VStr "10/24/2023"); ("time", VStr "10:00:00 AM");
                ("temperature", VStr "-2°C"); ("feels_like", VStr "-2°C");
                ("main", VStr "Rain"); ("description", VStr "light rain");
                ("wind_speed", VStr "3.6 m/s"); ("humidity", VStr "70%")]])]).
Proof.
  refine (proj1 (forecast_maps_every_entry enUS_UTC noKeys "Oslo" "NO" 200 _
                   [sampleForecastEntry "1698130800" "10.5"; sampleForecastEntry "1698141600" "-2"]
                   _ _) _ _).
  - lia.
  - reflexivity.
  - repeat constructor; vm_compute; reflexivity.
Defined.

(** ** Current weather: the unit suffixes *)

Tactic Notation "bind_ok" hyp(H) "as" ident(x) ident(E) :=
  lazymatch type of H with
  | bind ?m _ = Ok _ => destruct m as [x|] eqn:E; cbn [bind] in H; [|discriminate H]
  end.

Tactic Notation "try_ok" hyp(H) "as" ident(x) ident(E) :=
  lazymatch type of H with
  | try_catch (bind ?m _) _ = Json _ _ =>
      destruct m as [x|] eqn:E; cbn [bind try_catch] in H; [|discriminate H]
  end.

Lemma template_suffix_ok (v : value) (suffix out : string) :
  template_suffix v suffix = Ok out -> suffixed v suffix (VStr out).
Proof.
  unfold template_suffix, suffixed. intros H. bind_ok H as s E.
  injection H as <-. eexists. split; reflexivity.
Qed.

Lemma suffixed_number (n : number) (suffix : string) (out : value) :
  suffixed (VNum n) suffix out <-> out = VStr (NumberToString n ++ suffix).
Proof.
  unfold suffixed; simpl. split.
  - intros [s [H ->]]. injection H as <-. reflexivity.
  - intros ->. eexists. split; reflexivity.
Qed.

(** C9: in every successful response of [getCurrentWeather] the
    temperature and feels-like fields are the upstream values followed by
    [°C], the humidity is the upstream value followed by [%] and the wind
    speed the upstream value followed by [ m/s]. *)
Theorem current_weather_units (host : Host) (config : Config) (city country : string)
    (reply : upstream_reply) (st : Z) (body : value) :
  respond_to (getCurrentWeather host config city country) reply = Json st body ->
  exists status payload main wind temp feels hum speed,
    reply = HttpReply status payload
    /\ get payload "main" = Ok main /\ get payload "wind" = Ok wind
    /\ get main "temp" = Ok temp /\ get main "feels_like" = Ok feels
    /\ get main "humidity" = Ok hum /\ get wind "speed" = Ok speed
    /\ suffixed temp "°C" (field body "temperature")
    /\ suffixed feels "°C" (field body "feels_like")
    /\ suffixed hum "%" (field body "humidity")
    /\ suffixed speed " m/s" (field body "wind_speed").
Proof.
  unfold respond_to, run, getCurrentWeather, snd. intros H.
  try_ok H as response Hget. try_ok H as built Hbody. injection H as <- <-.
  apply axios_get_ok in Hget as [status [-> Hst]].
  unfold currentWeatherBody in Hbody.
  bind_ok Hbody as weather E1. bind_ok Hbody as weather0 E2.
  bind_ok Hbody as description E3.
  bind_ok Hbody as main Hmain. bind_ok Hbody as temp Htemp.
  bind_ok Hbody as temperature Ut.
  bind_ok Hbody as feels Hfeels. bind_ok Hbody as feels_like Uf.
  bind_ok Hbody as hum Hhum. bind_ok Hbody as humidity Uh.
  bind_ok Hbody as wind Hwind. bind_ok Hbody as speed Hspeed.
  bind_ok Hbody as wind_speed Us.
  bind_ok Hbody as sys E4. bind_ok Hbody as sunrise_s E5. bind_ok Hbody as sunrise E6.
  bind_ok Hbody as sunset_s E7. bind_ok Hbody as sunset E8.
  injection Hbody as <-.
  exists status, (data response), main, wind, temp, feels, hum, speed.
  repeat split; try assumption; cbn [field lookup String.eqb Ascii.eqb Bool.eqb];
    apply template_suffix_ok; assumption.
Qed.

Lemma current_weather_units_witness :
  suffixed (num "21.5") "°C" (VStr "21.5°C")
  /\ suffixed (num "64") "%" (VStr "64%")
  /\ suffixed (num "4.12") " m/s" (VStr "4.12 m/s").
Proof.
  destruct (current_weather_units enUS_UTC noKeys "Clemson" "US" (HttpReply 200 sampleWeather) 200
    (VObj [("location", VStr "Clemson, US"); ("description", VStr "broken clouds");
           ("temperature", VStr "21.5°C"); ("feels_like", VStr "20.93°C");
           ("humidity", VStr "64%"); ("wind_speed", VStr "4.12 m/s");
           ("sunrise", VStr "7:00:00 AM"); ("sunset", VStr "6:00:00 PM")])
    ltac:(vm_compute; reflexivity))
    as (status & payload & main & wind & temp & feels & hum & speed & Hr & Hm & Hw & Ht & Hf & Hh & Hs
        & Ut & Uf & Uh & Us).
  injection Hr as <- <-.
  injection Hm as <-. injection Hw as <-.
  injection Ht as <-. injection Hh as <-. injection Hs as <-.
  exact (conj Ut (conj Uh Us)).
Defined.

(** ** Countries of a continent *)

Lemma filterM_In {A : Type} (p : A -> result bool) (l kept : list A) :
  filterM p l = Ok kept ->
  forall x, In x kept <-> In x l /\ p x = Ok true.
Proof.
  revert kept. induction l as [|y r IH]; simpl; intros kept H x.
  - injection H as <-. simpl. tauto.
  - destruct (p y) as [keep|] eqn:Hy; cbn [bind] in H; [|discriminate].
    destruct (filterM p r) as [ys|] eqn:Hr; cbn [bind] in H; [|discriminate].
    injection H as <-. specialize (IH ys eq_refl x).
    destruct keep; simpl; rewrite IH; split.
    + intros [<- | [Hin Hp]]; auto.
    + intros [[<- | Hin] Hp]; auto.
    + intros [Hin Hp]; auto.
    + intros [[<- | Hin] Hp]; [congruence | auto].
Qed.

Lemma filterM_skip {A : Type} (p : A -> result bool) (before after : list A) (x : A) :
  p x = Ok false ->
  filterM p (before ++ x :: after) = filterM p (before ++ after).
Proof.
  intros Hx. induction before as [|y r IH]; simpl.
  - rewrite Hx. cbn [bind]. destruct (filterM p after); reflexivity.
  - rewrite IH. reflexivity.
Qed.

Lemma filterM_none {A : Type} (p : A -> result bool) (l : list A) :
  Forall (fun x => p x = Ok false) l -> filterM p l = Ok [].
Proof.
  induction 1 as [|x r Hx _ IH]; simpl; [reflexivity|].
  rewrite Hx, IH. reflexivity.
Qed.

Lemma inContinent_true (host : Host) (continentName : string) (country : value) :
  inContinent host continentName country = Ok true <->
  exists r, get country "region" = Ok (VStr r) /\ equal_ignoring_case host r continentName.
Proof.
  unfold inContinent, equal_ignoring_case. split.
  - intros H. destruct (get country "region") as [region|] eqn:Hr; cbn [bind] in H; [|discriminate].
    destruct region; simpl in H; try discriminate.
    exists s. split; [reflexivity|].
    injection H as H. apply String.eqb_eq in H. exact H.
  - intros [r [-> H]]. simpl. rewrite H, String.eqb_refl. reflexivity.
Qed.

Lemma inContinent_absent (host : Host) (continentName : string) (country : value) :
  region_absent country = true -> inContinent host continentName country = Ok false.
Proof.
  unfold region_absent, inContinent. destruct country; try discriminate.
  simpl. destruct (lookup "region" props) as [[]|]; try discriminate; reflexivity.
Qed.

Lemma inContinent_differs (host : Host) (continentName : string) (country : value) :
  region_differs host continentName country -> inContinent host continentName country = Ok false.
Proof.
  intros (props & r & -> & Hr & Hneq). unfold inContinent. simpl. rewrite Hr. simpl.
  destruct (String.eqb (toLowerCase host r) (toLowerCase host continentName)) eqn:E; [|reflexivity].
  exfalso. apply Hneq. apply String.eqb_eq. exact E.
Qed.

Lemma inContinent_regionMatches (host : Host) (continentName : string) (country : value)
    (b : bool) :
  inContinent host continentName country = Ok b -> regionMatches host continentName country = b.
Proof.
  unfold inContinent, regionMatches.
  destruct (get country "region") as [region|]; cbn [bind]; [|discriminate].
  destruct region; simpl; intros H; try discriminate; injection H as <-; reflexivity.
Qed.


Lemma filterM_inContinent (host : Host) (continentName : string) (l kept : list value) :
  filterM (inContinent host continentName) l = Ok kept ->
  kept = filter (regionMatches host continentName) l.
Proof.
  revert kept. induction l as [|c r IH]; simpl; intros kept H.
  - injection H as <-. reflexivity.
  - destruct (inContinent host continentName c) as [b|] eqn:Hc; cbn [bind] in H; [|discriminate].
    destruct (filterM (inContinent host continentName) r) as [ys|]; cbn [bind] in H; [|discriminate].
    injection H as <-. rewrite (inContinent_regionMatches _ _ _ _ Hc), (IH ys eq_refl).
    destruct b; reflexivity.
Qed.


(** The countries of a JSON response are the entries of the upstream
    countries whose region matches, in upstream order. *)
Lemma continent_response_countries (host : Host) (continentName : string)
    (status : Z) (catalog : list value) (st : Z) (body : value) :
  respond_to (getCountriesByContinent host continentName) (HttpReply status (VArr catalog))
    = Json st body ->
  exists countries,
    st = 200
    /\ body = VObj [("continent", VStr (continentLabel host continentName));
                    ("numberOfCountries", VNum (num_of_Z (Z.of_nat (List.length countries))));
                    ("countries", VArr countries)]
    /\ Forall2 (fun country out => continentEntry host country = Ok out)
               (filter (regionMatches host continentName) catalog) countries.
Proof.
  unfold respond_to, run, getCountriesByContinent, snd. intros H.
  try_ok H as response Hget. try_ok H as countries Hc. injection H as <- <-.
  apply axios_get_ok in Hget as [status' [Hreply _]]. injection Hreply as _ Hdata.
  rewrite <- Hdata in Hc. unfold countriesInContinent, call_filter in Hc.
  bind_ok Hc as kept Hkept.
  apply filterM_inContinent in Hkept. subst kept.
  exists countries. split; [reflexivity|]. split; [reflexivity|].
  apply mapM_Forall2. exact Hc.
Qed.



Lemma charAt0_slice1 (s : string) : charAt0 s ++ slice1 s = s.
Proof.
  destruct s as [|c r]; [reflexivity|].
  unfold charAt0, slice1. generalize (unit_width c), (String c r). clear c r.
  intros n. induction n as [|n IH]; intros [|c r]; simpl; try reflexivity.
  rewrite IH. reflexivity.
Qed.

(** C6, as the code has it: when every country of the catalog has a region
    that is absent, or a string that is not the continent name up to
    letter case, the handler answers with an empty list and the count 0;
    the count of every JSON response is the length of its list, and the
    continent label is the first character of the name in upper case
    followed by the rest of the name in lower case. *)
Theorem continent_count_and_label (host : Host) (continentName : string) :
  (forall status catalog,
      200 <= status < 300 ->
      Forall (fun c => region_absent c = true \/ region_differs host continentName c) catalog ->
      respond_to (getCountriesByContinent host continentName) (HttpReply status (VArr catalog))
        = Json 200 (VObj [("continent", VStr (continentLabel host continentName));
                          ("numberOfCountries", VNum (num_of_Z 0));
                          ("countries", VArr [])]))
  /\ (forall reply st body,
        respond_to (getCountriesByContinent host continentName) reply = Json st body ->
        exists countries,
          st = 200
          /\ body = VObj [("continent", VStr (continentLabel host continentName));
                          ("numberOfCountries", VNum (num_of_Z (Z.of_nat (List.length countries))));
                          ("countries", VArr countries)])
  /\ continentLabel host continentName
     = toUpperCase host (charAt0 continentName) ++ toLowerCase host (slice1 continentName)
  /\ charAt0 continentName ++ slice1 continentName = continentName.
Proof.
  split; [|split; [|split]].
  - intros status catalog Hst Hnone.
    unfold respond_to, run, getCountriesByContinent, snd.
    rewrite (axios_get_2xx _ _ Hst). cbn [bind data].
    unfold countriesInContinent, call_filter.
    rewrite filterM_none; [reflexivity|].
    eapply Forall_impl; [|exact Hnone].
    intros c [Habs|Hdiff]; [apply inContinent_absent | apply inContinent_differs]; assumption.
  - intros reply st body. unfold respond_to, run, getCountriesByContinent, snd. intros H.
    try_ok H as response Hget. try_ok H as countries Hc.
    injection H as <- <-. exists countries. split; reflexivity.
  - reflexivity.
  - apply charAt0_slice1.
Qed.

Lemma region_differs_sample (host : Host) (continentName name region : string) :
  toLowerCase host region <> toLowerCase host continentName ->
  region_differs host continentName (sampleCountry name region).
Proof.
  intros H. unfold region_differs, sampleCountry. eexists _, region.
  split; [reflexivity|]. split; [reflexivity|]. exact H.
Qed.

Lemma continent_count_and_label_witness :
  respond_to (getCountriesByContinent enUS_UTC "aNTARCTIC")
    (HttpReply 200 (VArr [sampleCountry "Kenya" "Africa"; stateless "Atlantis"]))
  = Json 200 (VObj [("continent", VStr "Antarctic");
                    ("numberOfCountries", VNum (S754_zero false));
                    ("countries", VArr [])]).
Proof.
  apply (proj1 (continent_count_and_label enUS_UTC "aNTARCTIC") 200
           [sampleCountry "Kenya" "Africa"; stateless "Atlantis"]).
  - lia.
  - constructor; [|constructor; [|constructor]].
    + right. apply region_differs_sample. discriminate.
    + left. reflexivity.
Defined.

(** C6, as stated, fails on a catalog in which no region matches but one
    region is not a string: the filter callback throws on it and the
    handler answers 500 instead of an empty list. *)
Lemma no_match_can_still_fail :
  regionMatches enUS_UTC "Africa"
    (VObj [("name", VObj [("common", VStr "Oddland")]); ("region", num "7")]) = false
  /\ respond_to (getCountriesByContinent enUS_UTC "Africa")
       (HttpReply 200 (VArr [VObj [("name", VObj [("common", VStr "Oddland")]);
                                   ("region", num "7")]]))
     = Text 500 "Error retrieving list of countries in Africa".
Proof. split; reflexivity. Qed.

(** C10: a country whose region is absent is never kept by the filter,
    whatever the continent name, and its presence in the catalog changes
    neither the countries selected nor the response. *)
Theorem absent_region_is_skipped (host : Host) (continentName : string)
    (before after : list value) (country : value) (status : Z) :
  region_absent country = true ->
  inContinent host continentName country = Ok false
  /\ countriesInContinent host continentName (VArr (before ++ country :: after))
     = countriesInContinent host continentName (VArr (before ++ after))
  /\ respond_to (getCountriesByContinent host continentName)
       (HttpReply status (VArr (before ++ country :: after)))
     = respond_to (getCountriesByContinent host continentName)
       (HttpReply status (VArr (before ++ after))).
Proof.
  intros Habs.
  assert (Hskip : inContinent host continentName country = Ok false)
    by (apply inContinent_absent; exact Habs).
  assert (Hsame : countriesInContinent host continentName (VArr (before ++ country :: after))
                  = countriesInContinent host continentName (VArr (before ++ after))).
  { unfold countriesInContinent, call_filter. rewrite (filterM_skip _ _ _ _ Hskip). reflexivity. }
  split; [exact Hskip|]. split; [exact Hsame|].
  unfold respond_to, run, getCountriesByContinent, snd, axios_get.
  destruct ((200 <=? status) && (status <? 300)); [|reflexivity].
  cbn [bind data]. rewrite Hsame. reflexivity.
Qed.

Lemma absent_region_is_skipped_witness :
  respond_to (getCountriesByContinent enUS_UTC "Africa")
    (HttpReply 200 (VArr [sampleCountry "Kenya" "Africa"; stateless "Atlantis";
                          sampleCountry "Peru" "Americas"]))
  = respond_to (getCountriesByContinent enUS_UTC "Africa")
    (HttpReply 200 (VArr [sampleCountry "Kenya" "Africa"; sampleCountry "Peru" "Americas"])).
Proof.
  exact (proj2 (proj2 (absent_region_is_skipped enUS_UTC "Africa"
    [sampleCountry "Kenya" "Africa"] [sampleCountry "Peru" "Americas"] (stateless "Atlantis") 200
    eq_refl))).
Defined.

(** ** Country information: missing fields *)

(** The five guarded fields of [getCountryInfo]: a country that has its
    name, population, area and a [flags] object, and nothing else, is
    described with ["Not Available"] for the capital, the languages, the
    currencies, the subregion and the flag. *)
Lemma countryInfo_defaults (host : Host) (common : string) (population area : number) :
  countryInfo host
    (VObj [("name", VObj [("common", VStr common)]);
           ("population", VNum population);
           ("area", VNum area);
           ("flags", VObj [])])
  = Ok (VObj [("countryName", VStr common);
              ("capitalCity", NotAvailable);
              ("population", VStr (numberToLocaleString host population));
              ("area", VStr (numberToLocaleString host area ++ " km²"));
              ("officialLanguage", NotAvailable);
              ("currencies", NotAvailable);
              ("region", VUndefined);
              ("subregion", NotAvailable);
              ("flag", NotAvailable)]).
Proof. reflexivity. Qed.

(** The handler of [/continent/:continentName] guards the area as well. *)
Lemma continentEntry_defaults_area (host : Host) (common : string) (population : number) :
  continentEntry host
    (VObj [("name", VObj [("common", VStr common)]);
           ("population", VNum population);
           ("flags", VObj [])])
  = Ok (VObj [("countryName", VStr common);
              ("capitalCity", NotAvailable);
              ("population", VStr (numberToLocaleString host population));
              ("area", NotAvailable);
              ("languages", NotAvailable);
              ("flag", NotAvailable)]).
Proof. reflexivity. Qed.

(** C1: [getCountryInfo] reads [country.area.toLocaleString()] with no
    guard, so a first result without [area] makes the handler answer 500
    instead of defaulting the field to ["Not Available"]. *)
Theorem country_without_area_fails (host : Host) (countryName : string) (status : Z)
    (first : value) (rest : list value) :
  get first "area" = Ok VUndefined \/ get first "area" = Ok VNull ->
  respond_to (getCountryInfo host countryName) (HttpReply status (VArr (first :: rest)))
    = Text 500 ("Error retrieving information about " ++ countryName).
Proof.
  intros Harea.
  unfold respond_to, run, getCountryInfo, snd, axios_get.
  destruct ((200 <=? status) && (status <? 300)); [|reflexivity].
  cbn [bind data get0]. unfold countryInfo.
  destruct (get first "name") as [name|]; cbn [bind try_catch]; [|reflexivity].
  destruct (get name "common") as [common|]; cbn [bind try_catch]; [|reflexivity].
  destruct (capitalCity_of first) as [capitalCity|]; cbn [bind try_catch]; [|reflexivity].
  destruct (get first "population") as [pop|]; cbn [bind try_catch]; [|reflexivity].
  destruct (call_toLocaleString host pop) as [population|]; cbn [bind try_catch]; [|reflexivity].
  destruct Harea as [-> | ->]; reflexivity.
Qed.

Lemma country_without_area_fails_witness :
  respond_to (getCountryInfo enUS_UTC "Atlantis") (HttpReply 200 (VArr [bareCountry "Atlantis" "Europe"]))
    = Text 500 "Error retrieving information about Atlantis".
Proof.
  apply (country_without_area_fails enUS_UTC "Atlantis" 200 (bareCountry "Atlantis" "Europe") []).
  left. reflexivity.
Defined.

(** ** Upstream failures *)

Ltac split_binds :=
  repeat match goal with
         | |- context [bind ?m _] => destruct m; cbn [bind try_catch]
         end.

(** C2, as the code has it: on every data-fetching route that issues its
    upstream request, a rejected request (no response, or a status outside
    of 2xx) and every body on which the transformation of the route throws
    are answered with status 500 and the message of the route: so are a
    [null] body on every route and an empty object on the weather and
    country routes.  Whatever the upstream reply, the response is either
    that status 500 text or, with status 200, the complete JSON body that
    the transformation built from a body received with a status in 2xx. *)
Theorem upstream_failure_is_500 (host : Host) (config : Config) (r : route)
    (url : string) (k : upstream_reply -> response) :
  dispatch host config r = AxiosGet url k ->
  k NetworkFailure = Text 500 (failure_message r)
  /\ (forall status payload, ~ (200 <= status < 300) ->
        k (HttpReply status payload) = Text 500 (failure_message r))
  /\ (forall status payload e, transform host r payload = Throw e ->
        k (HttpReply status payload) = Text 500 (failure_message r))
  /\ (forall status payload body, 200 <= status < 300 ->
        transform host r payload = Ok body ->
        k (HttpReply status payload) = Json 200 body)
  /\ (forall status, k (HttpReply status VNull) = Text 500 (failure_message r))
  /\ (forall status,
        match r with
        | UsdToEur _ | JpyToGbp _ => True
        | _ => k (HttpReply status (VObj [])) = Text 500 (failure_message r)
        end)
  /\ (forall reply,
        k reply = Text 500 (failure_message r)
        \/ exists status payload body,
             reply = HttpReply status payload /\ 200 <= status < 300
             /\ transform host r payload = Ok body /\ k reply = Json 200 body).
Proof.
  intros Hk.
  assert (Hrun : forall reply,
             k reply = try_catch
                         (let* response := axios_get reply in
                          let* body := transform host r (data response) in
                          Ok (Json 200 body))
                         (fun _ => Text 500 (failure_message r))).
  { destruct r as [city country | city country | countryName | continentName | amount | amount];
      cbn [dispatch] in Hk;
      unfold getCurrentWeather, getForecast, getCountryInfo, getCountriesByContinent,
             convertUsdToEur, convertJpyToGbp in Hk;
      try (destruct (negb (truthy amount)); [discriminate Hk|]);
      injection Hk as _ <-; intros reply; cbn [failure_message transform];
      destruct (axios_get reply) as [response|]; cbn [bind try_catch]; try reflexivity;
      split_binds; reflexivity. }
  assert (Hthrow : forall status payload e, transform host r payload = Throw e ->
                   k (HttpReply status payload) = Text 500 (failure_message r)).
  { intros status payload e He. rewrite Hrun. unfold axios_get.
    destruct ((200 <=? status) && (status <? 300)); [|reflexivity].
    cbn [bind data]. rewrite He. reflexivity. }
  assert (Hok : forall status payload body, 200 <= status < 300 ->
                transform host r payload = Ok body ->
                k (HttpReply status payload) = Json 200 body).
  { intros status payload body Hst Hb. rewrite Hrun, (axios_get_2xx _ _ Hst).
    cbn [bind data]. rewrite Hb. reflexivity. }
  assert (Hbad : forall status payload, ~ (200 <= status < 300) ->
                 k (HttpReply status payload) = Text 500 (failure_message r)).
  { intros status payload Hst. rewrite Hrun. unfold axios_get.
    destruct (200 <=? status) eqn:Hlo; destruct (status <? 300) eqn:Hhi; try reflexivity.
    exfalso. apply Hst. split; [apply Z.leb_le, Hlo | apply Z.ltb_lt, Hhi]. }
  split; [rewrite Hrun; reflexivity|].
  split; [exact Hbad|]. split; [exact Hthrow|]. split; [exact Hok|].
  split; [|split].
  - intros status. apply (Hthrow status VNull TypeError). destruct r; reflexivity.
  - intros status. destruct r; try exact I;
      apply (Hthrow status (VObj []) TypeError); reflexivity.
  - intros [|status payload]; [left; rewrite Hrun; reflexivity|].
    destruct (Z_le_dec 200 status) as [Hlo|Hlo];
      [destruct (Z_lt_dec status 300) as [Hhi|Hhi]|];
      try (left; apply Hbad; lia).
    destruct (transform host r payload) as [body|e] eqn:Ht.
    + right. exists status, payload, body.
      split; [reflexivity|]. split; [lia|]. split; [exact Ht|].
      apply Hok; [lia | exact Ht].
    + left. apply (Hthrow _ _ _ Ht).
Qed.

Lemma upstream_failure_is_500_witness :
  respond_to (getCurrentWeather enUS_UTC noKeys "Clemson" "US") NetworkFailure
    = Text 500 "Error retrieving current weather"
  /\ respond_to (convertJpyToGbp noKeys (VStr "100")) (HttpReply 503 (VStr "Service Unavailable"))
    = Text 500 "Error converting JPY to GBP"
  /\ respond_to (getCurrentWeather enUS_UTC noKeys "Clemson" "US")
       (HttpReply 200 (VObj [("weather", VArr [VObj [("description", VStr "mist")]]);
                             ("main", VObj [("temp", num "3")]);
                             ("wind", VObj [("speed", num "1")])]))
    = Text 500 "Error retrieving current weather".
Proof.
  split; [|split].
  - exact (proj1 (upstream_failure_is_500 enUS_UTC noKeys (CurrentWeather "Clemson" "US") _ _ eq_refl)).
  - apply (proj1 (proj2 (upstream_failure_is_500 enUS_UTC noKeys (JpyToGbp (VStr "100")) _ _ eq_refl))).
    lia.
  - apply (proj1 (proj2 (proj2 (upstream_failure_is_500 enUS_UTC noKeys
                                  (CurrentWeather "Clemson" "US") _ _ eq_refl)))
             200 _ TypeError).
    reflexivity.
Defined.

(** C2, as stated, fails on the currency routes: an empty object is not
    the payload the handler expects, and the response is a JSON body with
    status 200 whose converted amount is ["NaN EUR"]. *)
Lemma unexpected_rate_payload_is_not_500 :
  ~ rate_shape "USD_EUR" (VObj [])
  /\ respond_to (dispatch enUS_UTC noKeys (UsdToEur (VStr "100"))) (HttpReply 200 (VObj []))
     = Json 200 (VObj [("fromCurrency", VStr "USD");
                       ("toCurrency", VStr "EUR");
                       ("originalAmount", VStr "100 USD");
                       ("convertedAmount", VStr "NaN EUR");
                       ("conversionRate", VUndefined)])
  /\ respond_to (dispatch enUS_UTC noKeys (UsdToEur (VStr "100"))) (HttpReply 200 (VObj []))
     <> Text 500 (failure_message (UsdToEur (VStr "100"))).
Proof.
  split; [|split].
  - intros (props & n & Hp & Hl). injection Hp as <-. discriminate Hl.
  - vm_compute. reflexivity.
  - vm_compute. discriminate.
Qed.

(** ** Decimal numerals *)

Lemma append_assoc (a b c : string) : (a ++ b) ++ c = a ++ (b ++ c).
Proof. induction a as [|x r IH]; simpl; [reflexivity|]. rewrite IH. reflexivity. Qed.

Lemma length_append (a b : string) :
  String.length (a ++ b) = (String.length a + String.length b)%nat.
Proof. induction a as [|x r IH]; simpl; [reflexivity|]. rewrite IH. reflexivity. Qed.

Lemma take_append (a b : string) : take (String.length a) (a ++ b) = a.
Proof. induction a as [|x r IH]; simpl; [destruct b; reflexivity|]. rewrite IH. reflexivity. Qed.

Lemma drop_append (a b : string) : drop (String.length a) (a ++ b) = b.
Proof. induction a as [|x r IH]; simpl; [reflexivity|]. exact IH. Qed.

Lemma dec_loop_acc (fuel : nat) (n : Z) (acc : string) :
  dec_loop fuel n acc = dec_loop fuel n "" ++ acc.
Proof.
  revert n acc. induction fuel as [|f IH]; intros n acc; simpl; [reflexivity|].
  destruct (n <? 10); [reflexivity|].
  rewrite (IH _ (String _ acc)), (IH _ (String _ "")), append_assoc. reflexivity.
Qed.

Lemma dec_loop_fuel (f1 f2 : nat) (n : Z) (acc : string) :
  0 <= n < 2 ^ Z.of_nat (S f1) -> n < 2 ^ Z.of_nat (S f2) ->
  dec_loop (S f1) n acc = dec_loop (S f2) n acc.
Proof.
  revert f2 n acc. induction f1 as [|f1 IH]; intros f2 n acc H1 H2.
  - assert ((n <? 10) = true) as Hn by (apply Z.ltb_lt; change (2 ^ Z.of_nat 1) with 2 in H1; lia).
    simpl. rewrite Hn. reflexivity.
  - cbn [dec_loop]. destruct (n <? 10) eqn:Hn; [reflexivity|].
    apply Z.ltb_ge in Hn.
    rewrite Nat2Z.inj_succ, Z.pow_succ_r in H1, H2 by lia.
    destruct f2 as [|f2]; [change (2 ^ Z.of_nat 0) with 1 in H2; lia|].
    apply IH.
    + split; [apply Z.div_pos; lia|].
      apply Z.div_lt_upper_bound; lia.
    + apply Z.div_lt_upper_bound; lia.
Qed.

Lemma log2_fuel (n : Z) : 0 <= n -> n < 2 ^ Z.of_nat (S (Z.to_nat (Z.log2 n))).
Proof.
  intros Hn. rewrite Nat2Z.inj_succ, Z2Nat.id by apply Z.log2_nonneg.
  destruct (Z.eq_dec n 0) as [-> | Hz]; [reflexivity|].
  apply Z.log2_spec. lia.
Qed.

Lemma dec_of_Z_small (n : Z) :
  0 <= n < 10 -> dec_of_Z n = String (digit_char n) "".
Proof.
  intros Hn. unfold dec_of_Z. cbn [dec_loop].
  replace (n <? 10) with true by (symmetry; apply Z.ltb_lt; lia).
  rewrite Z.mod_small by lia. reflexivity.
Qed.

Lemma dec_of_Z_step (n : Z) :
  10 <= n -> dec_of_Z n = dec_of_Z (n / 10) ++ String (digit_char (n mod 10)) "".
Proof.
  intros Hn. unfold dec_of_Z at 1. cbn [dec_loop].
  replace (n <? 10) with false by (symmetry; apply Z.ltb_ge; lia).
  rewrite dec_loop_acc. f_equal.
  assert (Hlog : 3 <= Z.log2 n) by (apply Z.log2_le_pow2; [lia | simpl; lia]).
  destruct (Z.to_nat (Z.log2 n)) as [|f] eqn:Hf; [lia|].
  unfold dec_of_Z. apply dec_loop_fuel.
  - split; [apply Z.div_pos; lia|].
    apply Z.div_lt_upper_bound; [lia|].
    pose proof (log2_fuel n ltac:(lia)) as Hb. rewrite Hf in Hb.
    rewrite Nat2Z.inj_succ, Z.pow_succ_r in Hb by lia. lia.
  - apply log2_fuel. apply Z.div_pos; lia.
Qed.

Lemma is_digit_digit_char (d : Z) : 0 <= d < 10 -> is_digit (digit_char d) = true.
Proof.
  intros Hd.
  assert (d = 0 \/ d = 1 \/ d = 2 \/ d = 3 \/ d = 4 \/ d = 5 \/ d = 6 \/ d = 7 \/ d = 8 \/ d = 9)
    as H by lia.
  repeat (destruct H as [-> | H]; [reflexivity|]). subst d. reflexivity.
Qed.

Lemma all_digits_append (a b : string) :
  all_digits (a ++ b) = all_digits a && all_digits b.
Proof.
  induction a as [|c r IH]; simpl; [reflexivity|].
  rewrite IH, andb_assoc. reflexivity.
Qed.

(** The numeral of a natural number is a non-empty string of digits. *)
Lemma dec_of_Z_digits (n : Z) :
  0 <= n -> all_digits (dec_of_Z n) = true /\ (1 <= String.length (dec_of_Z n))%nat.
Proof.
  intros Hn. pattern n. apply Zlt_0_ind; [|exact Hn]. clear n Hn.
  intros n IH Hn.
  destruct (Z_lt_le_dec n 10) as [Hs|Hl].
  - rewrite dec_of_Z_small by lia. cbn [all_digits String.length].
    rewrite is_digit_digit_char by lia. split; [reflexivity | lia].
  - rewrite dec_of_Z_step by lia.
    assert (0 <= n / 10 < n) as Hq.
    { split; [apply Z.div_pos; lia | apply Z.div_lt; lia]. }
    destruct (IH (n / 10) ltac:(lia)) as [Hd Hlen].
    rewrite all_digits_append, length_append, Hd. cbn [all_digits String.length andb].
    rewrite is_digit_digit_char by (apply Z.mod_pos_bound; lia).
    split; [reflexivity | lia].
Qed.

(** ** toFixed(2) *)

(** Steps 11.b and 11.c of [toFixed] with two digits write the integer
    [n] as [n] hundredths. *)
Lemma fixed_digits_two (n : Z) : 0 <= n -> fixed_digits 2 n = two_decimals n.
Proof.
  intros Hn. unfold fixed_digits, two_decimals.
  destruct (Z_lt_le_dec n 10) as [H10|H10]; [|destruct (Z_lt_le_dec n 100) as [H100|H100]].
  - rewrite (dec_of_Z_small n) by lia.
    rewrite (Z.div_small n 100), (Z.div_small n 10), (Z.mod_small n 10) by lia.
    generalize (digit_char n). intros d. reflexivity.
  - rewrite (dec_of_Z_step n) by lia.
    assert (0 <= n / 10 < 10) as Hq.
    { split; [apply Z.div_pos; lia | apply Z.div_lt_upper_bound; lia]. }
    rewrite (dec_of_Z_small (n / 10)) by lia.
    rewrite (Z.div_small n 100), (Z.mod_small (n / 10) 10) by lia.
    generalize (digit_char (n mod 10)), (digit_char (n / 10)). intros d0 d1. reflexivity.
  - rewrite (dec_of_Z_step n) by lia.
    assert (10 <= n / 10) as Hq by (apply Z.div_le_lower_bound; lia).
    rewrite (dec_of_Z_step (n / 10)) by lia.
    rewrite Z.div_div by lia. change (10 * 10) with 100.
    assert (0 <= n / 100) as Hh by (apply Z.div_pos; lia).
    destruct (dec_of_Z_digits (n / 100) Hh) as [_ Hlen].
    generalize (digit_char (n mod 10)), (digit_char ((n / 10) mod 10)). intros d0 d1.
    rewrite append_assoc. cbn [append].
    rewrite length_append. cbn [String.length].
    set (D := dec_of_Z (n / 100)) in *.
    replace ((String.length D + 2 <=? 2)%nat) with false
      by (symmetry; apply Nat.leb_gt; lia).
    replace (String.length D + 2 - 2)%nat with (String.length D) by lia.
    rewrite take_append, drop_append. reflexivity.
Qed.

Lemma digit_is_not_minus (c : ascii) (r : string) :
  is_digit c = true ->
  match String c r with String "-" t => t | _ => String c r end = String c r.
Proof. destruct c as [[] [] [] [] [] [] [] []]; try discriminate; reflexivity. Qed.

(** The numeral of [n] hundredths, with or without a minus sign, has
    exactly two decimal places. *)
Lemma two_decimals_shape (sign : string) (n : Z) :
  0 <= n -> sign = "" \/ sign = "-" ->
  is_two_decimal (sign ++ two_decimals n) = true.
Proof.
  intros Hn Hsign. unfold two_decimals.
  assert (0 <= n / 100) as Hh by (apply Z.div_pos; lia).
  destruct (dec_of_Z_digits (n / 100) Hh) as [Hd Hlen].
  assert (is_digit (digit_char ((n / 10) mod 10)) = true) as H1
    by (apply is_digit_digit_char, Z.mod_pos_bound; lia).
  assert (is_digit (digit_char (n mod 10)) = true) as H0
    by (apply is_digit_digit_char, Z.mod_pos_bound; lia).
  revert H1 H0. generalize (digit_char (n mod 10)), (digit_char ((n / 10) mod 10)).
  intros d0 d1 H1 H0.
  set (D := dec_of_Z (n / 100)) in *.
  set (tail := String d1 (String d0 "")).
  assert (Hbody : is_two_decimal (sign ++ D ++ "." ++ tail)
                  = ((4 <=? String.length (D ++ "." ++ tail))%nat
                     && all_digits (take (String.length (D ++ "." ++ tail) - 3) (D ++ "." ++ tail))
                     && String.eqb (take 1 (drop (String.length (D ++ "." ++ tail) - 3)
                                                  (D ++ "." ++ tail))) "."
                     && all_digits (drop (String.length (D ++ "." ++ tail) - 2) (D ++ "." ++ tail)))).
  { destruct Hsign as [-> | ->]; [|reflexivity].
    unfold is_two_decimal. cbn [append].
    destruct D as [|c r] eqn:HD; [simpl in Hlen; lia|].
    cbn [append]. cbn [all_digits] in Hd. apply andb_prop in Hd as [Hc _].
    rewrite (digit_is_not_minus c _ Hc). reflexivity. }
  rewrite Hbody. rewrite length_append. cbn [String.length append tail].
  replace (String.length D + 3 - 3)%nat with (String.length D) by lia.
  replace (String.length D + 3 - 2)%nat with (String.length (D ++ ".")) by (rewrite length_append; simpl; lia).
  rewrite take_append, drop_append.
  change (D ++ String "." tail) with (D ++ "." ++ tail).
  rewrite <- append_assoc, drop_append.
  unfold tail. cbn [take all_digits]. rewrite Hd, H1, H0.
  replace ((4 <=? String.length D + 3)%nat) with true by (symmetry; apply Nat.leb_le; lia).
  reflexivity.
Qed.

Lemma pow2_neg (p : positive) : 2 ^ Zpos p = Zpos (2 ^ p).
Proof. rewrite Pos2Z.inj_pow. reflexivity. Qed.

(** The integer of step 11.a is the nearest number of hundredths, the
    larger one of two that are equally near. *)
Lemma hundredths_nearest (x : number) :
  0 <= hundredths x
  /\ (100 * magnitude x - (1 # 2) < inject_Z (hundredths x))%Q
  /\ (inject_Z (hundredths x) <= 100 * magnitude x + (1 # 2))%Q.
Proof.
  destruct x as [s | s | | s m e];
    try (split; [reflexivity | split; [reflexivity | unfold Qle; simpl; lia]]).
  unfold hundredths, magnitude, num_abs_Q, nearest_scaled, Qpow2.
  change (10 ^ 2) with 100.
  destruct e as [|p|p].
  - change (2 ^ 0) with 1. rewrite Z.mul_1_r.
    split; [lia|]. unfold Qlt, Qle, Qminus, Qplus, Qmult, Qopp, inject_Z. cbn [Qnum Qden].
    split; lia.
  - assert (0 < 2 ^ Zpos p) as HP by (apply Z.pow_pos_nonneg; lia).
    set (P := 2 ^ Zpos p) in *. clearbody P.
    split; [nia|]. unfold Qlt, Qle, Qminus, Qplus, Qmult, Qopp, inject_Z. cbn [Qnum Qden].
    split; nia.
  - rewrite pow2_neg. set (q := (2 ^ p)%positive). clearbody q.
    assert (0 < 2 * Zpos q) as Hb by lia.
    pose proof (Z.mul_div_le (2 * Zpos m * 100 + Zpos q) (2 * Zpos q) Hb) as Hle.
    pose proof (Z.mul_succ_div_gt (2 * Zpos m * 100 + Zpos q) (2 * Zpos q) Hb) as Hgt.
    set (n := (2 * Zpos m * 100 + Zpos q) / (2 * Zpos q)) in *. clearbody n.
    split; [nia|]. unfold Qlt, Qle, Qminus, Qplus, Qmult, Qopp, inject_Z. cbn [Qnum Qden].
    split; nia.
Qed.

(** [toFixed(2)] on a Number that is zero or finite and below [10^21]. *)
Lemma toFixed_two (x : number) :
  fixed_range x = true ->
  toFixed 2 x = sign_text x ++ two_decimals (hundredths x).
Proof.
  destruct x as [s | s | | s m e]; try discriminate; intros Hx.
  - reflexivity.
  - unfold fixed_range in Hx. apply negb_true_iff in Hx.
    unfold toFixed. rewrite Hx.
    change (Z.of_nat 2) with 2.
    rewrite fixed_digits_two by (apply (hundredths_nearest (S754_finite s m e))).
    destruct s; reflexivity.
Qed.

(** ** Currency conversion: the converted amount *)

(** C4, as the code has it: when the amount is present and its product by
    the fetched rate is zero or a finite Number below [10^21] in magnitude,
    both currency handlers answer with the product rounded to the nearest
    hundredth (the larger magnitude when two are equally near), written
    with exactly two decimal places and followed by the target currency
    code, and with the upstream rate as [conversionRate]. *)
Theorem conversion_rounds_to_hundredths (config : Config) (amount rate payload : value)
    (status : Z) (product : number) (original : string) :
  truthy amount = true ->
  200 <= status < 300 ->
  js_mul amount rate = Ok product ->
  ToString amount = Ok original ->
  fixed_range product = true ->
  (get payload "USD_EUR" = Ok rate ->
     respond_to (convertUsdToEur config amount) (HttpReply status payload)
     = Json 200 (VObj [("fromCurrency", VStr "USD");
                       ("toCurrency", VStr "EUR");
                       ("originalAmount", VStr (original ++ " USD"));
                       ("convertedAmount",
                        VStr ((sign_text product ++ two_decimals (hundredths product)) ++ " EUR"));
                       ("conversionRate", rate)]))
  /\ (get payload "JPY_GBP" = Ok rate ->
     respond_to (convertJpyToGbp config amount) (HttpReply status payload)
     = Json 200 (VObj [("fromCurrency", VStr "JPY");
                       ("toCurrency", VStr "GBP");
                       ("originalAmount", VStr (original ++ " JPY"));
                       ("convertedAmount",
                        VStr ((sign_text product ++ two_decimals (hundredths product)) ++ " GBP"));
                       ("conversionRate", rate)]))
  /\ is_two_decimal (sign_text product ++ two_decimals (hundredths product)) = true
  /\ (100 * magnitude product - (1 # 2) < inject_Z (hundredths product)
      <= 100 * magnitude product + (1 # 2))%Q.
Proof.
  intros Hamount Hst Hmul Horig Hrange.
  split; [|split; [|split]].
  - intros Hrate. unfold respond_to, run, convertUsdToEur, snd.
    rewrite Hamount. cbn [negb]. rewrite (axios_get_2xx _ _ Hst). cbn [bind data].
    rewrite Hrate. cbn [bind]. rewrite Hmul. cbn [bind].
    unfold template_suffix. rewrite Horig. cbn [bind try_catch].
    rewrite (toFixed_two product Hrange). reflexivity.
  - intros Hrate. unfold respond_to, run, convertJpyToGbp, snd.
    rewrite Hamount. cbn [negb]. rewrite (axios_get_2xx _ _ Hst). cbn [bind data].
    rewrite Hrate. cbn [bind]. rewrite Hmul. cbn [bind].
    unfold template_suffix. rewrite Horig. cbn [bind try_catch].
    rewrite (toFixed_two product Hrange). reflexivity.
  - apply two_decimals_shape.
    + apply hundredths_nearest.
    + destruct product as [| | |[]]; auto.
  - apply hundredths_nearest.
Qed.

Lemma conversion_rounds_to_hundredths_witness :
  respond_to (convertUsdToEur noKeys (VStr "100"))
    (HttpReply 200 (VObj [("USD_EUR", num "0.92")]))
  = Json 200 (VObj [("fromCurrency", VStr "USD");
                    ("toCurrency", VStr "EUR");
                    ("originalAmount", VStr "100 USD");
                    ("convertedAmount", VStr "92.00 EUR");
                    ("conversionRate", num "0.92")]).
Proof.
  exact (proj1 (conversion_rounds_to_hundredths noKeys (VStr "100") (num "0.92")
                  (VObj [("USD_EUR", num "0.92")]) 200
                  (num_mul (StringToNumber "100") (StringToNumber "0.92")) "100"
                  eq_refl ltac:(lia)
                  eq_refl eq_refl eq_refl)
               eq_refl).
Defined.

(** C4, as stated, fails for an amount that is not numeric: the product
    is NaN and the converted amount is ["NaN EUR"], which has no decimal
    places. *)
Lemma non_numeric_amount_is_not_rounded :
  truthy (VStr "abc") = true
  /\ respond_to (convertUsdToEur noKeys (VStr "abc"))
       (HttpReply 200 (VObj [("USD_EUR", num "0.92")]))
     = Json 200 (VObj [("fromCurrency", VStr "USD");
                       ("toCurrency", VStr "EUR");
                       ("originalAmount", VStr "abc USD");
                       ("convertedAmount", VStr "NaN EUR");
                       ("conversionRate", num "0.92")])
  /\ is_two_decimal "NaN" = false.
Proof. repeat split; vm_compute; reflexivity. Qed.

(** From [10^21] on, [toFixed] writes the Number as [ToString] does. *)
Example huge_amount_is_not_rounded :
  field (match respond_to (convertJpyToGbp noKeys (VStr "1e21"))
                 (HttpReply 200 (VObj [("JPY_GBP", num "1")])) with
         | Json _ body => body
         | Text _ _ => VUndefined
         end) "convertedAmount"
  = VStr "1e+21 GBP".
Proof. vm_compute. reflexivity. Qed.

(** ** The runtime on known values *)

Example StringToNumber_values :
  StringToNumber "0.1" = S754_finite false 7205759403792794 (-56)
  /\ StringToNumber " 1e3 " = num_of_Z 1000
  /\ StringToNumber "0x1F" = num_of_Z 31
  /\ StringToNumber "" = S754_zero false
  /\ StringToNumber "12px" = NaN
  /\ StringToNumber "9007199254740993" = num_of_Z 9007199254740992
  /\ StringToNumber "1.7976931348623159e308" = S754_infinity false
  /\ StringToNumber "2.4703282292062327e-324" = S754_zero false.
Proof. repeat split; vm_compute; reflexivity. Qed.

Example NumberToString_values :
  map (fun literal => NumberToString (StringToNumber literal))
      ["0.1"; "100"; "1e21"; "123456789012345680000"; "5e-324"; "0.000001"; "1e-7";
       "-3.14"; "0.30000000000000004"; "295147905179352825856"; "1.7976931348623157e308"]
  = ["0.1"; "100"; "1e+21"; "123456789012345680000"; "5e-324"; "0.000001"; "1e-7";
     "-3.14"; "0.30000000000000004"; "295147905179352830000"; "1.7976931348623157e+308"].
Proof. vm_compute. reflexivity. Qed.

Example toFixed_values :
  map (fun literal => toFixed 2 (StringToNumber literal))
      ["92"; "0.005"; "1.005"; "8.345"; "10.235"; "-1.5"; "-0.001"; "0"; "1e21"; "abc"]
  = ["92.00"; "0.01"; "1.00"; "8.35"; "10.23"; "-1.50"; "-0.00"; "0.00"; "1e+21"; "NaN"].
Proof. vm_compute. reflexivity. Qed.

Example current_weather_sample :
  run (fun _ => HttpReply 200 sampleWeather) (getCurrentWeather enUS_UTC noKeys "Clemson" "US")
  = (["https://api.openweathermap.org/data/2.5/weather?q=Clemson,US&units=metric&appid=undefined"],
     Json 200 (VObj [("location", VStr "Clemson, US");
                     ("description", VStr "broken clouds");
                     ("temperature", VStr "21.5°C");
                     ("feels_like", VStr "20.93°C");
                     ("humidity", VStr "64%");
                     ("wind_speed", VStr "4.12 m/s");
                     ("sunrise", VStr "7:00:00 AM");
                     ("sunset", VStr "6:00:00 PM")])).
Proof. vm_compute. reflexivity. Qed.

Example country_sample :
  respond_to (getCountryInfo enUS_UTC "Kenya")
    (HttpReply 200 (VArr [sampleCountry "Kenya" "Africa"; sampleCountry "Kenyatta" "Nowhere"]))
  = Json 200 (VObj [("countryName", VStr "Kenya");
                    ("capitalCity", VStr "Kenya City");
                    ("population", VStr "1,234,567");
                    ("area", VStr "9,876.5 km²");
                    ("officialLanguage", VStr "English, French");
                    ("currencies", VStr "Crown");
                    ("region", VStr "Africa");
                    ("subregion", VStr "Northern");
                    ("flag", VStr "https://flags.example/x.svg")]).
Proof. vm_compute. reflexivity. Qed.

Example continent_sample :
  respond_to (getCountriesByContinent enUS_UTC "AFRICA")
    (HttpReply 200 (VArr [sampleCountry "Peru" "Americas"; bareCountry "Kenya" "Africa";
                          stateless "Atlantis"]))
  = Json 200 (VObj [("continent", VStr "Africa");
                    ("numberOfCountries", VNum (num_of_Z 1));
                    ("countries",
                     VArr [VObj [("countryName", VStr "Kenya");
                                 ("capitalCity", NotAvailable);
                                 ("population", VStr "1,000");
                                 ("area", NotAvailable);
                                 ("languages", NotAvailable);
                                 ("flag", VStr "https://flags.example/x.svg")]])]).
Proof. vm_compute. reflexivity. Qed.

(** * Further properties of the handlers *)

Lemma mapM_throw {A B : Type} (f : A -> result B) (l : list A) (x : A) (e : exn) :
  In x l -> f x = Throw e -> exists e', mapM f l = Throw e'.
Proof.
  intros Hin Hx. induction l as [|y r IH]; [contradiction|].
  simpl. destruct Hin as [-> | Hin].
  - rewrite Hx. eexists. reflexivity.
  - destruct (f y); [|eexists; reflexivity].
    destruct (IH Hin) as [e' ->]. eexists. reflexivity.
Qed.

Lemma filterM_throw {A : Type} (p : A -> result bool) (l : list A) (x : A) (e : exn) :
  In x l -> p x = Throw e -> exists e', filterM p l = Throw e'.
Proof.
  intros Hin Hx. induction l as [|y r IH]; [contradiction|].
  simpl. destruct Hin as [-> | Hin].
  - rewrite Hx. eexists. reflexivity.
  - destruct (p y); [|eexists; reflexivity].
    destruct (IH Hin) as [e' ->]. eexists. reflexivity.
Qed.

(** ** Country information *)

(** X1: when the upstream list has no first element (an empty list, or a
    body that is no list at all), [getCountryInfo] answers 500 with the
    message that embeds the requested name. *)
Theorem country_without_first_result_fails (host : Host) (countryName : string)
    (status : Z) (payload : value) :
  (forall country, get0 payload = Ok country -> nullish country = true) ->
  respond_to (getCountryInfo host countryName) (HttpReply status payload)
    = Text 500 ("Error retrieving information about " ++ countryName).
Proof.
  intros Hnone.
  unfold respond_to, run, getCountryInfo, snd, axios_get.
  destruct ((200 <=? status) && (status <? 300)); [|reflexivity].
  cbn [bind data].
  destruct (get0 payload) as [country|] eqn:Hc; cbn [bind try_catch]; [|reflexivity].
  specialize (Hnone country eq_refl).
  destruct country; try discriminate; reflexivity.
Qed.

Lemma country_without_first_result_fails_witness :
  respond_to (getCountryInfo enUS_UTC "Narnia") (HttpReply 200 (VArr []))
    = Text 500 "Error retrieving information about Narnia".
Proof.
  apply (country_without_first_result_fails enUS_UTC "Narnia" 200 (VArr [])).
  intros country H. injection H as <-. reflexivity.
Defined.

(** X2: of a list of capitals only the first one is reported, by
    [getCountryInfo] as by the entries of [getCountriesByContinent]. *)
Theorem first_capital_only (host : Host) (props : list (string * value))
    (capital : value) (others : list value) :
  countryInfo host (VObj (("capital", VArr (capital :: others)) :: props))
    = countryInfo host (VObj (("capital", VArr [capital]) :: props))
  /\ continentEntry host (VObj (("capital", VArr (capital :: others)) :: props))
    = continentEntry host (VObj (("capital", VArr [capital]) :: props))
  /\ (forall out,
        countryInfo host (VObj (("capital", VArr (capital :: others)) :: props)) = Ok out ->
        field out "capitalCity" = capital)
  /\ (forall out,
        continentEntry host (VObj (("capital", VArr (capital :: others)) :: props)) = Ok out ->
        field out "capitalCity" = capital).
Proof.
  split; [reflexivity|]. split; [reflexivity|]. split.
  - intros out H. unfold countryInfo in H.
    bind_ok H as name E1. bind_ok H as common E2.
    cbn in H.
    bind_ok H as pop E3. bind_ok H as population E4.
    bind_ok H as a E5. bind_ok H as a_text E6.
    bind_ok H as officialLanguage E7. bind_ok H as cur E8.
    bind_ok H as currencies E9. bind_ok H as region E10.
    bind_ok H as sub E11. bind_ok H as flag E12.
    injection H as <-. reflexivity.
  - intros out H. unfold continentEntry in H.
    bind_ok H as name E1. bind_ok H as common E2.
    cbn in H.
    bind_ok H as pop E3. bind_ok H as population E4.
    bind_ok H as a E5. bind_ok H as area E6.
    bind_ok H as languages E7. bind_ok H as flag E8.
    injection H as <-. reflexivity.
Qed.

Lemma first_capital_only_witness :
  field (VObj [("countryName", VStr "Azania"); ("capitalCity", VStr "Pretoria");
               ("population", VStr "1,000"); ("area", NotAvailable);
               ("languages", NotAvailable); ("flag", NotAvailable)]) "capitalCity"
  = VStr "Pretoria".
Proof.
  apply (proj2 (proj2 (proj2 (first_capital_only enUS_UTC
           [("name", VObj [("common", VStr "Azania")]); ("population", num "1000");
            ("flags", VObj [])]
           (VStr "Pretoria") [VStr "Bloemfontein"; VStr "Cape Town"])))).
  vm_compute. reflexivity.
Defined.

(** X3: when the country has an empty list of capitals, or an empty
    object of languages or of currencies, the guard of the field passes
    and the sentinel is not used: the capital is [undefined] and the
    languages and currencies are the empty string. *)
Theorem empty_collections_bypass_sentinel (host : Host) (props : list (string * value))
    (out : value) :
  countryInfo host (VObj (("capital", VArr []) :: ("languages", VObj [])
                          :: ("currencies", VObj []) :: props)) = Ok out ->
  field out "capitalCity" = VUndefined
  /\ field out "officialLanguage" = VStr ""
  /\ field out "currencies" = VStr "".
Proof.
  intros H. unfold countryInfo in H.
  bind_ok H as name E1. bind_ok H as common E2.
  cbn in H.
  bind_ok H as pop E3. bind_ok H as population E4.
  bind_ok H as a E5. bind_ok H as a_text E6.
  bind_ok H as region E7. bind_ok H as sub E8. bind_ok H as flag E9.
  injection H as <-. repeat split; reflexivity.
Qed.

Lemma empty_collections_bypass_sentinel_witness :
  field (VObj [("countryName", VStr "Bouvet"); ("capitalCity", VUndefined);
               ("population", VStr "0"); ("area", VStr "49 km²");
               ("officialLanguage", VStr ""); ("currencies", VStr "");
               ("region", VStr "Antarctic"); ("subregion", NotAvailable);
               ("flag", NotAvailable)]) "officialLanguage"
  = VStr "".
Proof.
  apply (proj1 (proj2 (empty_collections_bypass_sentinel enUS_UTC
           [("name", VObj [("common", VStr "Bouvet")]); ("population", num "0");
            ("area", num "49"); ("region", VStr "Antarctic"); ("flags", VObj [])]
           _ ltac:(vm_compute; reflexivity)))).
Defined.

Lemma Array_join_strings (sep : string) (l : list string) :
  Array_join (map VStr l) sep = Ok (join_strings sep l).
Proof.
  unfold Array_join.
  assert (H : mapM (fun x => if nullish x then Ok "" else ToString x) (map VStr l) = Ok l).
  { induction l as [|x r IH]; [reflexivity|].
    cbn [map mapM nullish ToString bind]. rewrite IH. reflexivity. }
  rewrite H. reflexivity.
Qed.

Lemma first_bindings_NoDup (seen : list string) (props : list (string * value)) :
  NoDup (map fst props) ->
  (forall k, In k seen -> ~ In k (map fst props)) ->
  first_bindings seen props = props.
Proof.
  revert seen. induction props as [|[k v] r IH]; intros seen Hnd Hseen; [reflexivity|].
  cbn [first_bindings]. cbn [map fst] in Hnd, Hseen. inversion Hnd as [|? ? Hk Hr]; subst.
  destruct (existsb (String.eqb k) seen) eqn:E.
  - apply existsb_exists in E as [k' [Hin Heq]]. apply String.eqb_eq in Heq. subst k'.
    exfalso. apply (Hseen k Hin). left. reflexivity.
  - f_equal. apply IH; [exact Hr|].
    intros k' [<- | Hin]; [exact Hk|].
    intros Hin'. apply (Hseen k' Hin). right. exact Hin'.
Qed.

(** An object with no array index among its keys is enumerated in the
    order in which its properties were created. *)
Lemma own_values_named (props : list (string * value)) :
  NoDup (map fst props) ->
  Forall (fun kv => array_index (fst kv) = None) props ->
  own_values props = map snd props.
Proof.
  intros Hnd Hnamed. unfold own_values.
  rewrite (first_bindings_NoDup [] props Hnd) by (intros k []).
  assert (Hfold : fold_right (fun kv acc =>
                     match array_index (fst kv) with
                     | Some i => insert_index i (snd kv) acc
                     | None => acc
                     end) [] props = []).
  { induction Hnamed as [|kv r Hkv _ IH]; [reflexivity|].
    inversion Hnd; subst. cbn [fold_right]. rewrite Hkv. apply IH. assumption. }
  assert (Hfilter : filter (fun kv => match array_index (fst kv) with
                                      | Some _ => false
                                      | None => true
                                      end) props = props).
  { clear Hfold Hnd. induction Hnamed as [|kv r Hkv _ IH]; [reflexivity|].
    cbn [filter]. rewrite Hkv, IH. reflexivity. }
  rewrite Hfold, Hfilter. reflexivity.
Qed.

(** X4: the languages of a country, an object of strings upstream whose
    keys are language codes (no key is an array index), are reported as
    one string: the names in upstream order, separated by a comma and a
    space. *)
Theorem languages_are_joined_in_order (props : list (string * value))
    (entries : list (string * string)) :
  NoDup (map fst entries) ->
  Forall (fun entry => array_index (fst entry) = None) entries ->
  languages_of (VObj (("languages", string_props entries) :: props))
  = Ok (VStr (join_strings ", " (map snd entries))).
Proof.
  intros Hnd Hnamed. unfold languages_of, string_props.
  cbn [get lookup String.eqb Ascii.eqb Bool.eqb bind truthy Object_values].
  rewrite own_values_named.
  - rewrite map_map. cbn [snd]. rewrite <- (map_map snd VStr), Array_join_strings. reflexivity.
  - rewrite map_map. cbn [fst]. exact Hnd.
  - apply Forall_map. cbn [fst]. exact Hnamed.
Qed.

Lemma languages_are_joined_in_order_witness :
  languages_of (VObj [("languages", VObj [("eng", VStr "English"); ("swa", VStr "Swahili")]);
                      ("name", VObj [("common", VStr "Kenya")])])
  = Ok (VStr "English, Swahili").
Proof.
  apply (languages_are_joined_in_order [("name", VObj [("common", VStr "Kenya")])]
           [("eng", "English"); ("swa", "Swahili")]).
  - constructor; [|constructor; [|constructor]]; simpl; intuition discriminate.
  - repeat constructor.
Defined.

(** ** Weather *)

(** X5: of the list of weather conditions only the first one is used, by
    [getCurrentWeather] as by each entry of [getForecast]. *)
Theorem first_weather_condition_only (host : Host) (city country : string)
    (props : list (string * value)) (condition : value) (others : list value) :
  currentWeatherBody host city country (VObj (("weather", VArr (condition :: others)) :: props))
    = currentWeatherBody host city country (VObj (("weather", VArr [condition]) :: props))
  /\ forecastEntry host (VObj (("weather", VArr (condition :: others)) :: props))
    = forecastEntry host (VObj (("weather", VArr [condition]) :: props)).
Proof. split; reflexivity. Qed.

(** X6: each entry of the forecast carries the unit suffixes of the
    current weather: the temperature and feels-like fields are the
    upstream values followed by [°C], the humidity by [%] and the wind
    speed by [ m/s]; the condition and its description are passed on
    unchanged. *)
Theorem forecast_entry_units (host : Host) (entry out : value) :
  forecastEntry host entry = Ok out ->
  exists main wind weather condition temp feels hum speed,
    get entry "main" = Ok main /\ get entry "wind" = Ok wind
    /\ get entry "weather" = Ok weather /\ get0 weather = Ok condition
    /\ get main "temp" = Ok temp /\ get main "feels_like" = Ok feels
    /\ get main "humidity" = Ok hum /\ get wind "speed" = Ok speed
    /\ suffixed temp "°C" (field out "temperature")
    /\ suffixed feels "°C" (field out "feels_like")
    /\ suffixed hum "%" (field out "humidity")
    /\ suffixed speed " m/s" (field out "wind_speed")
    /\ get condition "main" = Ok (field out "main")
    /\ get condition "description" = Ok (field out "description").
Proof.
  intros H. unfold forecastEntry in H.
  bind_ok H as dt E1. bind_ok H as date E2. bind_ok H as time E4.
  bind_ok H as main Hmain. bind_ok H as temp Htemp. bind_ok H as temperature Ut.
  bind_ok H as feels Hfeels. bind_ok H as feels_like Uf.
  bind_ok H as weather Hweather. bind_ok H as condition Hcond.
  bind_ok H as main_label Hlabel. bind_ok H as description Hdesc.
  bind_ok H as wind Hwind. bind_ok H as speed Hspeed. bind_ok H as wind_speed Us.
  bind_ok H as hum Hhum. bind_ok H as humidity Uh.
  injection H as <-.
  exists main, wind, weather, condition, temp, feels, hum, speed.
  cbn [field lookup String.eqb Ascii.eqb Bool.eqb].
  repeat split; try assumption; apply template_suffix_ok; assumption.
Qed.

Lemma forecast_entry_units_witness :
  suffixed (num "-2") "°C" (VStr "-2°C").
Proof.
  destruct (forecast_entry_units enUS_UTC (sampleForecastEntry "1698141600" "-2")
    (VObj [("date", VStr "10/24/2023"); ("time", VStr "10:00:00 AM");
           ("temperature", VStr "-2°C"); ("feels_like", VStr "-2°C");
           ("main", VStr "Rain"); ("description", VStr "light rain");
           ("wind_speed", VStr "3.6 m/s"); ("humidity", VStr "70%")])
    ltac:(vm_compute; reflexivity))
    as (main & wind & weather & condition & temp & feels & hum & speed
        & Hm & Hw & Hwe & Hc & Ht & Hf & Hh & Hs & Ut & _).
  injection Hm as <-. injection Ht as <-. exact Ut.
Defined.

(** X7: the forecast is all or nothing: one upstream entry that cannot be
    mapped makes [getForecast] answer 500, whatever the other entries. *)
Theorem forecast_fails_on_any_bad_entry (host : Host) (config : Config) (city country : string)
    (status : Z) (payload : value) (entries : list value) (entry : value) (e : exn) :
  get payload "list" = Ok (VArr entries) ->
  In entry entries ->
  forecastEntry host entry = Throw e ->
  respond_to (getForecast host config city country) (HttpReply status payload)
    = Text 500 "Error retrieving 5-day forecast".
Proof.
  intros Hlist Hin Hbad.
  unfold respond_to, run, getForecast, snd, axios_get.
  destruct ((200 <=? status) && (status <? 300)); [|reflexivity].
  cbn [bind data]. rewrite Hlist. cbn [bind call_map].
  destruct (mapM_throw _ _ _ _ Hin Hbad) as [e' ->]. reflexivity.
Qed.

Lemma forecast_fails_on_any_bad_entry_witness :
  respond_to (getForecast enUS_UTC noKeys "Oslo" "NO")
    (HttpReply 200 (VObj [("list", VArr [sampleForecastEntry "1698130800" "10.5";
                                         VObj [("dt", num "1698141600")]])]))
  = Text 500 "Error retrieving 5-day forecast".
Proof.
  apply (forecast_fails_on_any_bad_entry enUS_UTC noKeys "Oslo" "NO" 200 _
           [sampleForecastEntry "1698130800" "10.5"; VObj [("dt", num "1698141600")]]
           (VObj [("dt", num "1698141600")]) TypeError).
  - reflexivity.
  - right. left. reflexivity.
  - vm_compute. reflexivity.
Defined.

(** ** Countries of a continent *)

(** X8: the countries of a successful response are the entries of the
    upstream countries whose region matches, one for each and in the
    upstream order; there are never more of them than countries in the
    catalog. *)
Theorem continent_keeps_upstream_order (host : Host) (continentName : string)
    (status : Z) (catalog : list value) (st : Z) (body : value) :
  respond_to (getCountriesByContinent host continentName) (HttpReply status (VArr catalog))
    = Json st body ->
  exists countries,
    field body "countries" = VArr countries
    /\ Forall2 (fun country out => continentEntry host country = Ok out)
               (filter (regionMatches host continentName) catalog) countries
    /\ (List.length countries <= List.length catalog)%nat.
Proof.
  intros H.
  destruct (continent_response_countries _ _ _ _ _ _ H) as (countries & _ & -> & Hall).
  exists countries. split; [reflexivity|]. split; [exact Hall|].
  rewrite <- (Forall2_length Hall). apply filter_length_le.
Qed.

Lemma continent_keeps_upstream_order_witness :
  exists countries,
    field (VObj [("continent", VStr "Africa");
                 ("numberOfCountries", VNum (num_of_Z 2));
                 ("countries",
                  VArr [VObj [("countryName", VStr "Kenya"); ("capitalCity", NotAvailable);
                              ("population", VStr "1,000"); ("area", NotAvailable);
                              ("languages", NotAvailable);
                              ("flag", VStr "https://flags.example/x.svg")];
                        VObj [("countryName", VStr "Mali"); ("capitalCity", NotAvailable);
                              ("population", VStr "1,000"); ("area", NotAvailable);
                              ("languages", NotAvailable);
                              ("flag", VStr "https://flags.example/x.svg")]])]) "countries"
    = VArr countries
    /\ Forall2 (fun country out => continentEntry enUS_UTC country = Ok out)
               (filter (regionMatches enUS_UTC "africa")
                       [bareCountry "Kenya" "Africa"; bareCountry "Peru" "Americas";
                        bareCountry "Mali" "AFRICA"]) countries
    /\ (List.length countries <= 3)%nat.
Proof.
  apply (continent_keeps_upstream_order enUS_UTC "africa" 200
           [bareCountry "Kenya" "Africa"; bareCountry "Peru" "Americas";
            bareCountry "Mali" "AFRICA"] 200).
  vm_compute. reflexivity.
Defined.

(** X9: one country that the handler cannot process makes
    [getCountriesByContinent] answer 500: a country whose region cannot be
    tested (it is [null] itself, or its region is neither a string nor
    absent), wherever it is in the catalog, and a country of the continent
    that cannot be described (no name, population or flags). *)
Theorem continent_fails_on_any_bad_country (host : Host) (continentName : string)
    (status : Z) (catalog : list value) (country : value) (e : exn) :
  In country catalog ->
  inContinent host continentName country = Throw e
  \/ (inContinent host continentName country = Ok true
      /\ continentEntry host country = Throw e) ->
  respond_to (getCountriesByContinent host continentName) (HttpReply status (VArr catalog))
    = Text 500 ("Error retrieving list of countries in " ++ continentName).
Proof.
  intros Hin Hbad.
  unfold respond_to, run, getCountriesByContinent, snd, axios_get.
  destruct ((200 <=? status) && (status <? 300)); [|reflexivity].
  cbn [bind data]. unfold countriesInContinent, call_filter.
  destruct Hbad as [Hf | [Hkeep Hm]].
  - destruct (filterM_throw _ _ _ _ Hin Hf) as [e' ->]. reflexivity.
  - destruct (filterM (inContinent host continentName) catalog) as [kept|] eqn:Hk;
      cbn [bind try_catch]; [|reflexivity].
    assert (In country kept) as Hkept by (apply (filterM_In _ _ _ Hk); auto).
    destruct (mapM_throw _ _ _ _ Hkept Hm) as [e' ->]. reflexivity.
Qed.

Lemma continent_fails_on_any_bad_country_witness :
  respond_to (getCountriesByContinent enUS_UTC "Africa")
    (HttpReply 200 (VArr [sampleCountry "Kenya" "Africa";
                          VObj [("name", VObj [("common", VStr "Oddland")]);
                                ("region", num "7")]]))
  = Text 500 "Error retrieving list of countries in Africa".
Proof.
  apply (continent_fails_on_any_bad_country enUS_UTC "Africa" 200 _
           (VObj [("name", VObj [("common", VStr "Oddland")]); ("region", num "7")])
           TypeError).
  - right. left. reflexivity.
  - left. reflexivity.
Defined.

(** X10: a body that is not a list where the handler expects one is
    answered with 500: the catalog of [getCountriesByContinent], and the
    [list] of [getForecast]. *)
Theorem non_array_payload_fails (host : Host) (config : Config) (status : Z) (payload : value) :
  (forall continentName,
      is_array payload = false ->
      respond_to (getCountriesByContinent host continentName) (HttpReply status payload)
        = Text 500 ("Error retrieving list of countries in " ++ continentName))
  /\ (forall city country,
      (forall list, get payload "list" = Ok list -> is_array list = false) ->
      respond_to (getForecast host config city country) (HttpReply status payload)
        = Text 500 "Error retrieving 5-day forecast").
Proof.
  split.
  - intros continentName Hna.
    unfold respond_to, run, getCountriesByContinent, snd, axios_get.
    destruct ((200 <=? status) && (status <? 300)); [|reflexivity].
    destruct payload; try discriminate; reflexivity.
  - intros city country Hna.
    unfold respond_to, run, getForecast, snd, axios_get.
    destruct ((200 <=? status) && (status <? 300)); [|reflexivity].
    cbn [bind data].
    destruct (get payload "list") as [list|] eqn:Hl; cbn [bind try_catch]; [|reflexivity].
    specialize (Hna list eq_refl). destruct list; try discriminate; reflexivity.
Qed.

Lemma non_array_payload_fails_witness :
  respond_to (getCountriesByContinent enUS_UTC "Asia")
    (HttpReply 200 (VObj [("message", VStr "Too many requests")]))
  = Text 500 "Error retrieving list of countries in Asia"
  /\ respond_to (getForecast enUS_UTC noKeys "Oslo" "NO")
       (HttpReply 200 (VObj [("cod", VStr "200"); ("list", VStr "none")]))
     = Text 500 "Error retrieving 5-day forecast".
Proof.
  split.
  - apply (proj1 (non_array_payload_fails enUS_UTC noKeys 200 _) "Asia"). reflexivity.
  - apply (proj2 (non_array_payload_fails enUS_UTC noKeys 200 _) "Oslo" "NO").
    intros list H. injection H as <-. reflexivity.
Defined.

(** X11: in an entry of [getCountriesByContinent] the area is guarded by
    its truthiness: a missing, [null] or zero area is reported as
    ["Not Available"], any other as its locale string followed by
    [ km²]. *)
Theorem continent_area_guard (host : Host) (country out : value) :
  continentEntry host country = Ok out ->
  exists a,
    get country "area" = Ok a
    /\ (truthy a = false -> field out "area" = NotAvailable)
    /\ (truthy a = true ->
        exists text, call_toLocaleString host a = Ok text
                     /\ field out "area" = VStr (text ++ " km²")).
Proof.
  intros H. unfold continentEntry in H.
  bind_ok H as name E1. bind_ok H as common E2. bind_ok H as capitalCity E3.
  bind_ok H as pop E4. bind_ok H as population E5. bind_ok H as a Ha.
  bind_ok H as area Harea. bind_ok H as languages E6. bind_ok H as flag E7.
  injection H as <-. exists a. split; [reflexivity|].
  cbn [field lookup String.eqb Ascii.eqb Bool.eqb].
  destruct (truthy a); split; intros Ht; try discriminate.
  - bind_ok Harea as text Htext. injection Harea as <-. exists text. split; reflexivity.
  - injection Harea as <-. reflexivity.
Qed.

Lemma continent_area_guard_witness :
  exists a,
    get (VObj [("name", VObj [("common", VStr "Flatland")]); ("population", num "12");
               ("area", num "0"); ("flags", VObj [])]) "area" = Ok a
    /\ (truthy a = false ->
        field (VObj [("countryName", VStr "Flatland"); ("capitalCity", NotAvailable);
                     ("population", VStr "12"); ("area", NotAvailable);
                     ("languages", NotAvailable); ("flag", NotAvailable)]) "area"
        = NotAvailable)
    /\ (truthy a = true ->
        exists text, call_toLocaleString enUS_UTC a = Ok text
                     /\ field (VObj [("countryName", VStr "Flatland"); ("capitalCity", NotAvailable);
                                     ("population", VStr "12"); ("area", NotAvailable);
                                     ("languages", NotAvailable); ("flag", NotAvailable)]) "area"
                        = VStr (text ++ " km²")).
Proof.
  apply (continent_area_guard enUS_UTC
           (VObj [("name", VObj [("common", VStr "Flatland")]); ("population", num "12");
                  ("area", num "0"); ("flags", VObj [])])).
  vm_compute. reflexivity.
Defined.

(** ** Currency conversion *)

(** X13: a JSON response of a currency handler is sent only for an amount
    that is present and an upstream status in 2xx, and is then made of the
    amount as received followed by the source currency, of the product of
    the amount and the rate written by [toFixed(2)] followed by the target
    currency, and of the rate exactly as the upstream body has it, be it a
    Number or not. *)
Theorem conversion_response_shape (config : Config) (amount : value)
    (reply : upstream_reply) (st : Z) (body : value) :
  (respond_to (convertUsdToEur config amount) reply = Json st body ->
   truthy amount = true
   /\ exists status payload rate product original,
        reply = HttpReply status payload /\ 200 <= status < 300
        /\ get payload "USD_EUR" = Ok rate
        /\ js_mul amount rate = Ok product
        /\ ToString amount = Ok original
        /\ st = 200
        /\ body = VObj [("fromCurrency", VStr "USD");
                        ("toCurrency", VStr "EUR");
                        ("originalAmount", VStr (original ++ " USD"));
                        ("convertedAmount", VStr (toFixed 2 product ++ " EUR"));
                        ("conversionRate", rate)])
  /\ (respond_to (convertJpyToGbp config amount) reply = Json st body ->
   truthy amount = true
   /\ exists status payload rate product original,
        reply = HttpReply status payload /\ 200 <= status < 300
        /\ get payload "JPY_GBP" = Ok rate
        /\ js_mul amount rate = Ok product
        /\ ToString amount = Ok original
        /\ st = 200
        /\ body = VObj [("fromCurrency", VStr "JPY");
                        ("toCurrency", VStr "GBP");
                        ("originalAmount", VStr (original ++ " JPY"));
                        ("convertedAmount", VStr (toFixed 2 product ++ " GBP"));
                        ("conversionRate", rate)]).
Proof.
  split; intros H.
  - unfold respond_to, run, convertUsdToEur, snd in H.
    destruct (truthy amount); cbn [negb] in H; [|discriminate]. split; [reflexivity|].
    try_ok H as response Hget. try_ok H as rate Hrate. try_ok H as product Hmul.
    unfold template_suffix in H.
    destruct (ToString amount) as [original|]; cbn [bind try_catch] in H; [|discriminate].
    injection H as <- <-.
    apply axios_get_ok in Hget as [status [-> Hst]].
    exists status, (data response), rate, product, original. repeat split; tauto.
  - unfold respond_to, run, convertJpyToGbp, snd in H.
    destruct (truthy amount); cbn [negb] in H; [|discriminate]. split; [reflexivity|].
    try_ok H as response Hget. try_ok H as rate Hrate. try_ok H as product Hmul.
    unfold template_suffix in H.
    destruct (ToString amount) as [original|]; cbn [bind try_catch] in H; [|discriminate].
    injection H as <- <-.
    apply axios_get_ok in Hget as [status [-> Hst]].
    exists status, (data response), rate, product, original. repeat split; tauto.
Qed.

Lemma conversion_response_shape_witness :
  truthy (VStr "250") = true
  /\ exists status payload rate product original,
       HttpReply 200 (VObj [("JPY_GBP", num "0.0052")]) = HttpReply status payload
       /\ 200 <= status < 300
       /\ get payload "JPY_GBP" = Ok rate
       /\ js_mul (VStr "250") rate = Ok product
       /\ ToString (VStr "250") = Ok original
       /\ 200 = 200
       /\ VObj [("fromCurrency", VStr "JPY"); ("toCurrency", VStr "GBP");
                ("originalAmount", VStr "250 JPY"); ("convertedAmount", VStr "1.30 GBP");
                ("conversionRate", num "0.0052")]
          = VObj [("fromCurrency", VStr "JPY");
                  ("toCurrency", VStr "GBP");
                  ("originalAmount", VStr (original ++ " JPY"));
                  ("convertedAmount", VStr (toFixed 2 product ++ " GBP"));
                  ("conversionRate", rate)].
Proof.
  apply (proj2 (conversion_response_shape noKeys (VStr "250")
                  (HttpReply 200 (VObj [("JPY_GBP", num "0.0052")])) 200 _)).
  vm_compute. reflexivity.
Defined.

Lemma num_mul_NaN_r (x : number) : num_mul x NaN = NaN.
Proof. destruct x; reflexivity. Qed.

(** X14: an amount that is present but is no numeral, and a body without
    the rate, are not errors: the handlers answer with status 200, the
    amount as received and the converted amount ["NaN"]. *)
Theorem not_a_number_is_not_an_error (config : Config) (s : string) (rate : value)
    (status : Z) (payload : value) :
  s <> "" ->
  200 <= status < 300 ->
  (StringToNumber s = NaN /\ exists r, rate = VNum r) \/ rate = VUndefined ->
  (get payload "USD_EUR" = Ok rate ->
   respond_to (convertUsdToEur config (VStr s)) (HttpReply status payload)
   = Json 200 (VObj [("fromCurrency", VStr "USD");
                     ("toCurrency", VStr "EUR");
                     ("originalAmount", VStr (s ++ " USD"));
                     ("convertedAmount", VStr "NaN EUR");
                     ("conversionRate", rate)]))
  /\ (get payload "JPY_GBP" = Ok rate ->
   respond_to (convertJpyToGbp config (VStr s)) (HttpReply status payload)
   = Json 200 (VObj [("fromCurrency", VStr "JPY");
                     ("toCurrency", VStr "GBP");
                     ("originalAmount", VStr (s ++ " JPY"));
                     ("convertedAmount", VStr "NaN GBP");
                     ("conversionRate", rate)])).
Proof.
  intros Hs Hst Hnan.
  assert (Htruthy : truthy (VStr s) = true) by (destruct s; [congruence | reflexivity]).
  assert (Hmul : js_mul (VStr s) rate = Ok NaN).
  { unfold js_mul. destruct Hnan as [[Hn [r ->]] | ->]; cbn [ToNumber bind].
    - rewrite Hn. reflexivity.
    - rewrite num_mul_NaN_r. reflexivity. }
  split; intros Hrate.
  - unfold respond_to, run, convertUsdToEur, snd.
    rewrite Htruthy. cbn [negb]. rewrite (axios_get_2xx _ _ Hst). cbn [bind data].
    rewrite Hrate. cbn [bind]. rewrite Hmul. reflexivity.
  - unfold respond_to, run, convertJpyToGbp, snd.
    rewrite Htruthy. cbn [negb]. rewrite (axios_get_2xx _ _ Hst). cbn [bind data].
    rewrite Hrate. cbn [bind]. rewrite Hmul. reflexivity.
Qed.

Lemma not_a_number_is_not_an_error_witness :
  respond_to (convertJpyToGbp noKeys (VStr "12,50"))
    (HttpReply 200 (VObj [("JPY_GBP", num "0.0052")]))
  = Json 200 (VObj [("fromCurrency", VStr "JPY");
                    ("toCurrency", VStr "GBP");
                    ("originalAmount", VStr "12,50 JPY");
                    ("convertedAmount", VStr "NaN GBP");
                    ("conversionRate", num "0.0052")]).
Proof.
  apply (proj2 (not_a_number_is_not_an_error noKeys "12,50" (num "0.0052") 200
                  (VObj [("JPY_GBP", num "0.0052")])
                  ltac:(discriminate) ltac:(lia)
                  (or_introl (conj eq_refl (ex_intro _ (StringToNumber "0.0052") eq_refl))))).
  reflexivity.
Defined.

(** ** The upstream status *)

(** X15: the upstream status reaches the client only as success or
    failure: on every route two bodies received with statuses in 2xx are
    answered alike, and a body received with any other status is answered
    as if the upstream service had not responded. *)
Theorem upstream_status_is_not_forwarded (host : Host) (config : Config) (r : route)
    (payload : value) (s1 s2 : Z) :
  (200 <= s1 < 300 -> 200 <= s2 < 300 ->
   respond_to (dispatch host config r) (HttpReply s1 payload)
   = respond_to (dispatch host config r) (HttpReply s2 payload))
  /\ (~ (200 <= s1 < 300) ->
   respond_to (dispatch host config r) (HttpReply s1 payload)
   = respond_to (dispatch host config r) NetworkFailure).
Proof.
  assert (Hrun : forall h reply1 reply2,
             axios_get reply1 = axios_get reply2 ->
             (forall url k, h = AxiosGet url k ->
                            exists f, forall reply, k reply = f (axios_get reply)) ->
             respond_to h reply1 = respond_to h reply2).
  { intros h reply1 reply2 Heq Hk. destruct h as [resp|url k]; [reflexivity|].
    destruct (Hk url k eq_refl) as [f Hf].
    unfold respond_to, run, snd. rewrite !Hf, Heq. reflexivity. }
  assert (Hdep : forall url k, dispatch host config r = AxiosGet url k ->
                 exists f, forall reply, k reply = f (axios_get reply)).
  { intros url k Hk.
    destruct r as [city country | city country | countryName | continentName | amount | amount];
      cbn [dispatch] in Hk;
      unfold getCurrentWeather, getForecast, getCountryInfo, getCountriesByContinent,
             convertUsdToEur, convertJpyToGbp in Hk;
      try (destruct (negb (truthy amount)); [discriminate Hk|]);
      injection Hk as _ <-;
      match goal with
      | |- exists f, forall reply, try_catch (bind (axios_get reply) ?body) ?handler = _ =>
          exists (fun outcome => try_catch (bind outcome body) handler)
      end; reflexivity. }
  split.
  - intros H1 H2. apply Hrun; [|exact Hdep].
    rewrite (axios_get_2xx _ _ H1), (axios_get_2xx _ _ H2). reflexivity.
  - intros H1. apply Hrun; [|exact Hdep].
    unfold axios_get.
    destruct (200 <=? s1) eqn:Hlo; destruct (s1 <? 300) eqn:Hhi; try reflexivity.
    exfalso. apply H1. split; [apply Z.leb_le, Hlo | apply Z.ltb_lt, Hhi].
Qed.

Lemma upstream_status_is_not_forwarded_witness :
  respond_to (dispatch enUS_UTC noKeys (Country "Kenya"))
    (HttpReply 203 (VArr [sampleCountry "Kenya" "Africa"]))
  = respond_to (dispatch enUS_UTC noKeys (Country "Kenya"))
    (HttpReply 200 (VArr [sampleCountry "Kenya" "Africa"]))
  /\ respond_to (dispatch enUS_UTC noKeys (Country "Kenya"))
       (HttpReply 404 (VObj [("status", num "404"); ("message", VStr "Not Found")]))
     = respond_to (dispatch enUS_UTC noKeys (Country "Kenya")) NetworkFailure.
Proof.
  split.
  - apply (proj1 (upstream_status_is_not_forwarded enUS_UTC noKeys (Country "Kenya")
                    (VArr [sampleCountry "Kenya" "Africa"]) 203 200)); lia.
  - apply (proj2 (upstream_status_is_not_forwarded enUS_UTC noKeys (Country "Kenya")
                    (VObj [("status", num "404"); ("message", VStr "Not Found")]) 404 200)); lia.
Defined.

(** ** Credentials *)

(** X16: each route uses its own credential and no other: the weather
    routes depend on the configuration through the weather key only, the
    currency routes through the currency key only, the country routes not
    at all, and the maps key is handed out by [/api/maps-api-key] alone,
    which contacts no upstream service. *)
Theorem credentials_are_not_mixed (host : Host) (c1 c2 : Config) (r : route)
    (upstream : string -> upstream_reply) :
  (credential_of c1 r = credential_of c2 r ->
   dispatch host c1 r = dispatch host c2 r)
  /\ (googleMapsApiKey c1 = googleMapsApiKey c2 ->
      run upstream (getMapsApiKey c1) = run upstream (getMapsApiKey c2))
  /\ fst (run upstream (getMapsApiKey c1)) = [].
Proof.
  split; [|split].
  - destruct r; cbn [credential_of dispatch]; intros H;
      unfold getCurrentWeather, getForecast, convertUsdToEur, convertJpyToGbp;
      try rewrite H; reflexivity.
  - unfold getMapsApiKey. intros ->. reflexivity.
  - reflexivity.
Qed.

Lemma credentials_are_not_mixed_witness :
  dispatch enUS_UTC {| apiKey := Some "w"; currencyConverterApiKey := Some "c1";
                       googleMapsApiKey := Some "g1" |} (Forecast "Oslo" "NO")
  = dispatch enUS_UTC {| apiKey := Some "w"; currencyConverterApiKey := None;
                         googleMapsApiKey := Some "g2" |} (Forecast "Oslo" "NO").
Proof.
  apply (proj1 (credentials_are_not_mixed enUS_UTC
                  {| apiKey := Some "w"; currencyConverterApiKey := Some "c1";
                     googleMapsApiKey := Some "g1" |}
                  {| apiKey := Some "w"; currencyConverterApiKey := None;
                     googleMapsApiKey := Some "g2" |}
                  (Forecast "Oslo" "NO") (fun _ => NetworkFailure))).
  reflexivity.
Defined.

Example StringToNumber_white_space :
  StringToNumber (String (ascii_of_nat 194) (String (ascii_of_nat 160) "5")) = num_of_Z 5
  /\ StringToNumber "　42　" = num_of_Z 42
  /\ StringToNumber "1 2" = NaN.
Proof. repeat split; vm_compute; reflexivity. Qed.

Example Object_values_order :
  Object_values (VObj [("swa", VStr "Swahili"); ("eng", VStr "English"); ("10", VStr "Ten");
                       ("1", VStr "Uno"); ("01", VStr "Zero-one")])
  = Ok [VStr "Uno"; VStr "Ten"; VStr "Swahili"; VStr "English"; VStr "Zero-one"].
Proof. reflexivity. Qed.

Example continentLabel_values :
  map (continentLabel enUS_UTC) ["aFRICA"; "océanie"; "ßeta"; ""]
  = ["Africa"; "Océanie"; "SSeta"; ""].
Proof. vm_compute. reflexivity. Qed.

Example region_matches_beyond_ascii :
  regionMatches enUS_UTC "océanie" (VObj [("region", VStr "OCÉANIE")]) = true.
Proof. vm_compute. reflexivity. Qed.
